(** * ClipCatch (app.py): a shallow embedding and its checked properties

    The program is a Streamlit page over two external libraries: yt-dlp
    (fetch a video) and moviepy (cut a sub-clip).  The embedding follows
    [src/app.py] function by function.  Python values are the small
    universe [pyval]; the dictionaries handed over by yt-dlp are finite
    maps with string keys; exceptions are an explicit [result]; the
    page output, the library calls and the file system are threaded
    through the monad [M], whose trace lists every call in program
    order.  The two libraries and the file system are not code of the
    program: they are the operations of the record [Externals].

    Times and byte counts are Python numbers: integers are [Z], a float
    is the rational it stands for ([Q]).  In the progress hook the
    rounding of float arithmetic is the world's [float_round], with the
    overflow of an integer that is too large for a float; infinities
    and NaN are not modelled.  The times of the trimmer are compared
    and scaled as exact rationals. *)

From Stdlib Require Import Ascii String QArith Qabs Lqa.
From stdpp Require Import base option list strings gmap.

Open Scope string_scope.

(** ** Python values and exceptions *)

Inductive pyval :=
| PNone
| PInt (z : Z)
| PFloat (q : Q)
| PStr (s : string).

Inductive exn :=
| KeyError (key : string)
| TypeError (msg : string)
| ZeroDivisionError (msg : string)
| OverflowError (msg : string)
| LibraryError (msg : string).

(** [str(e)], as the f-strings of the error messages print it. *)
Definition exn_str (e : exn) : string :=
  match e with
  | KeyError k => "'" +:+ k +:+ "'"
  | TypeError m => m
  | ZeroDivisionError m => m
  | OverflowError m => m
  | LibraryError m => m
  end.

Inductive result (A : Type) :=
| Ok (a : A)
| Raise (e : exn).
Arguments Ok {A} a.
Arguments Raise {A} e.

Definition type_name (v : pyval) : string :=
  match v with
  | PNone => "NoneType"
  | PInt _ => "int"
  | PFloat _ => "float"
  | PStr _ => "str"
  end.

(** Strict order on [Q] as a boolean, next to the library's [Qle_bool]. *)
Definition Qlt_bool (a b : Q) : bool := negb (Qle_bool b a).

(** Truth value of a Python object ([bool(v)]). *)
Definition truthy (v : pyval) : bool :=
  match v with
  | PNone => false
  | PInt z => negb (Z.eqb z 0)
  | PFloat q => negb (Qeq_bool q 0)
  | PStr s => negb (String.eqb s "")
  end.

(** [a or b] on objects: [a] when it is truthy, else [b]. *)
Definition py_or (a b : pyval) : pyval := if truthy a then a else b.

(** The number a value stands for, if it is one. *)
Definition py_num (v : pyval) : option Q :=
  match v with
  | PInt z => Some (inject_Z z)
  | PFloat q => Some q
  | _ => None
  end.

(** [a > b]; comparing a number with [None] or a string raises. *)
Definition py_gt (a b : pyval) : result bool :=
  match py_num a, py_num b with
  | Some x, Some y => Ok (Qlt_bool y x)
  | _, _ =>
      Raise (TypeError ("'>' not supported between instances of '"
                        +:+ type_name a +:+ "' and '" +:+ type_name b +:+ "'"))
  end.

(** [v == s] for a string literal [s]. *)
Definition py_eq_str (v : pyval) (s : string) : bool :=
  match v with
  | PStr t => String.eqb t s
  | _ => false
  end.

(** Python's [needle in hay] on strings: some suffix of [hay] starts
    with [needle]. *)
Fixpoint str_in (needle hay : string) : bool :=
  String.prefix needle hay
  || match hay with
     | EmptyString => false
     | String _ hay' => str_in needle hay'
     end.

(** [v in file] where [file] is a string: the left operand must be a
    string too. *)
Definition py_in_str (v : pyval) (file : string) : result bool :=
  match v with
  | PStr t => Ok (str_in t file)
  | _ =>
      Raise (TypeError ("'in <string>' requires string as left operand, not "
                        +:+ type_name v))
  end.

(** Dictionaries: [d[k]], [d.get(k)] and [d.get(k, dflt)]. *)
Definition dict_getitem (d : gmap string pyval) (k : string) : result pyval :=
  match d !! k with
  | Some v => Ok v
  | None => Raise (KeyError k)
  end.

Definition dict_get (d : gmap string pyval) (k : string) : pyval :=
  default PNone (d !! k).

Definition dict_get_default (d : gmap string pyval) (k : string) (dflt : pyval)
  : pyval :=
  default dflt (d !! k).

(** [not info_dict] for a value that is [None] or a dictionary. *)
Definition falsy_dict (info : option (gmap string pyval)) : bool :=
  match info with
  | None => true
  | Some d => bool_decide (d = ∅)
  end.

(** [os.path.join(a, b)] on POSIX, two components. *)
Definition ends_with_slash (a : string) : bool :=
  match String.rev a with
  | String c _ => Ascii.eqb c "/"%char
  | EmptyString => false
  end.

Definition path_join (a b : string) : string :=
  if String.prefix "/" b then b
  else if String.eqb a "" || ends_with_slash a then a +:+ b
  else a +:+ "/" +:+ b.

(** ** Fetcher: the quality option chooses the format selector
    (app.py, lines 12-17) *)

Definition format_selector_of (quality_option : string) : string :=
  if String.eqb quality_option "Highest Resolution"
  then "bestvideo[ext=mp4]+bestaudio[ext=m4a]/best[ext=mp4]"
  else if String.eqb quality_option "Lowest Resolution"
  then "worstvideo[ext=mp4]+worstaudio[ext=m4a]/worst[ext=mp4]"
  else "best[ext=mp4]".

(** ** What the page shows and which library calls are made *)

Inductive event :=
| StError (msg : string)
| StSuccess (msg : string)
| StWarning (msg : string)
| StProgress (value : Q)
| StDownloadButton (label file_name mime : string)
| YdlExtractInfo (url format outtmpl : string)
| ClipOpen (path : string)
| ClipSubclip (t_start t_end : Q)
| ClipWriteVideofile (path : string)
| ClipClose
| FileRead (path : string).

(** The options dictionary given to [yt_dlp.YoutubeDL] (lines 19-28).
    The two remaining entries, the progress hook and the logger, are
    the program's own code: see [run_callback]. *)
Record ydl_opts := {
  opt_format : string;
  opt_outtmpl : string;
  opt_no_color : bool;
  opt_no_warnings : bool;
  opt_ignoreerrors : bool;
  opt_no_oversized_thumbnails : bool;
  opt_cookiefile : string;
}.

(** How yt-dlp calls back into the program while it runs. *)
Inductive callback :=
| HookCall (d : gmap string pyval)
| LogDebug (msg : string)
| LogWarning (msg : string)
| LogError (msg : string).

(** One run of [extract_info(url, download=True)]: the callbacks in
    order, the file system it leaves, and what it returns or raises. *)
Record ydl_run (fs : Type) := {
  run_callbacks : list callback;
  run_fs : fs;
  run_outcome : result (option (gmap string pyval));
}.
Arguments run_callbacks {fs} _.
Arguments run_fs {fs} _.
Arguments run_outcome {fs} _.

(** The world outside app.py: the file system, moviepy and yt-dlp. *)
Class Externals := {
  fs : Type;
  clip : Type;
  (** [os.listdir(dir)], in the order the system returns the names *)
  listdir : fs -> string -> list string;
  (** [open(path, 'rb').read()] *)
  read_bytes : fs -> string -> result (list Byte.byte);
  (** [VideoFileClip(path)] and its [duration] attribute *)
  video_file_clip : fs -> string -> result clip;
  duration : clip -> Q;
  (** [clip.subclip(t_start, t_end)] *)
  subclip : clip -> Q -> Q -> result clip;
  (** [clip.write_videofile(path, logger=None)]; it may leave a partial
      file behind when it raises *)
  write_videofile : fs -> clip -> string -> result unit * fs;
  (** [os.makedirs(path, exist_ok=True)] *)
  makedirs : fs -> string -> result unit * fs;
  (** [YoutubeDL(opts).extract_info(url, download=True)] *)
  extract_info : fs -> ydl_opts -> string -> ydl_run fs;
  (** Python's floats: the double nearest to a real number, and whether
      that double lies beyond the largest finite one *)
  float_round : Q -> Q;
  float_overflows : Q -> bool;
  (** [st.progress(value)] for a float: whether Streamlit takes the
      value, and the exception it raises when it does not *)
  progress_accepts : Q -> bool;
  progress_rejected : Q -> exn;
}.

(** Contract of moviepy used for the duration of a produced clip: a
    sub-clip of a range inside the clip lasts [t_end - t_start], and a
    written file, opened again, lasts as long as the clip up to the
    encoder's tolerance. *)
Definition subclip_contract (E : Externals) : Prop :=
  forall (c c' : clip) (s e : Q),
    (0 <= s)%Q -> (s < e)%Q -> (e <= duration c)%Q ->
    subclip c s e = Ok c' -> (duration c' == e - s)%Q.

Definition write_contract (E : Externals) (tolerance : Q) : Prop :=
  forall (w w' : fs) (c : clip) (path : string),
    write_videofile w c path = (Ok tt, w') ->
    exists c', video_file_clip w' path = Ok c'
               /\ (Qabs (duration c' - duration c) <= tolerance)%Q.

(** What the progress hook needs of float arithmetic: rounding keeps
    the order and is exact at 0, 1 and 100; a number no larger in
    magnitude than one that fits a float fits too, and 1 fits. *)
Definition float_laws (E : Externals) : Prop :=
  (forall x y : Q, (x <= y)%Q -> (float_round x <= float_round y)%Q)
  /\ (float_round 0 == 0)%Q
  /\ (float_round 1 == 1)%Q
  /\ (float_round 100 == 100)%Q
  /\ (forall x y : Q,
        (Qabs x <= Qabs y)%Q ->
        float_overflows y = false -> float_overflows x = false)
  /\ float_overflows 1 = false.




(** ** The monad of the program: file system, trace, exceptions *)

Section Program.
Context {E : Externals}.

Definition M (A : Type) : Type := fs -> result A * fs * list event.

Definition ret {A} (a : A) : M A := fun w => (Ok a, w, []).

Definition bind {A B} (m : M A) (k : A -> M B) : M B :=
  fun w =>
    match m w with
    | (Ok a, w1, t1) =>
        match k a w1 with
        | (r, w2, t2) => (r, w2, (t1 ++ t2)%list)
        end
    | (Raise e, w1, t1) => (Raise e, w1, t1)
    end.

Definition emit (ev : event) : M unit := fun w => (Ok tt, w, [ev]).

Definition raise {A} (e : exn) : M A := fun w => (Raise e, w, []).

Definition lift {A} (r : result A) : M A := fun w => (r, w, []).

(** [try: body except Exception as e: handler e] *)
Definition try_except {A} (body : M A) (handler : exn -> M A) : M A :=
  fun w =>
    match body w with
    | (Ok a, w1, t1) => (Ok a, w1, t1)
    | (Raise e, w1, t1) =>
        match handler e w1 with
        | (r, w2, t2) => (r, w2, (t1 ++ t2)%list)
        end
    end.

Notation "'let*' x ':=' m 'in' k" := (bind m (fun x => k))
  (at level 10, x name, m at level 100, k at level 200).
Notation "m ;;; k" := (bind m (fun _ => k))
  (at level 100, k at level 200, right associativity).

Fixpoint for_each {A} (f : A -> M unit) (l : list A) : M unit :=
  match l with
  | [] => ret tt
  | x :: l' => f x ;;; for_each f l'
  end.

(** ** download_progress (lines 63-72) *)

(** Line 68 and line 69. *)
Definition hook_downloaded (d : gmap string pyval) : pyval :=
  dict_get_default d "downloaded_bytes" (PInt 0).

Definition hook_total (d : gmap string pyval) : pyval :=
  py_or (dict_get d "total_bytes")
        (dict_get_default d "total_bytes_estimate" (PInt 0)).

(** An integer taken as a float, as a mixed operation does first. *)
Definition int_as_float (z : Z) : result Q :=
  if float_overflows (inject_Z z)
  then Raise (OverflowError "int too large to convert to float")
  else Ok (float_round (inject_Z z)).

(** The quotient of two floats. *)
Definition float_truediv (x y : Q) : result Q :=
  if Qeq_bool y 0
  then Raise (ZeroDivisionError "float division by zero")
  else Ok (float_round (x / y)).

(** True division [a / b].  Two integers give the correctly rounded
    quotient; with a float among the operands the integer is taken as
    a float first. *)
Definition py_truediv (a b : pyval) : result Q :=
  match a, b with
  | PInt x, PInt y =>
      if Z.eqb y 0 then Raise (ZeroDivisionError "division by zero")
      else if float_overflows (inject_Z x / inject_Z y)
      then Raise (OverflowError
                    "integer division result too large for a float")
      else Ok (float_round (inject_Z x / inject_Z y))
  | PInt x, PFloat y =>
      match int_as_float x with
      | Raise e => Raise e
      | Ok x' => float_truediv x' y
      end
  | PFloat x, PInt y =>
      match int_as_float y with
      | Raise e => Raise e
      | Ok y' => float_truediv x y'
      end
  | PFloat x, PFloat y => float_truediv x y
  | _, _ =>
      Raise (TypeError ("unsupported operand type(s) for /: '"
                        +:+ type_name a +:+ "' and '"
                        +:+ type_name b +:+ "'"))
  end.

(** [st.progress(value)] for a float: Streamlit shows the value or
    raises. *)
Definition st_progress (value : Q) : M unit :=
  if progress_accepts value
  then emit (StProgress value)
  else raise (progress_rejected value).

Definition download_progress (d : gmap string pyval) : M unit :=
  let* status := lift (dict_getitem d "status") in
  if py_eq_str status "downloading" then
    let downloaded := hook_downloaded d in
    let total := hook_total d in
    let* known := lift (py_gt total (PInt 0)) in
    if (known : bool) then
      let* ratio := lift (py_truediv downloaded total) in
      let percent := float_round (ratio * 100) in
      st_progress (float_round (percent / 100))
    else ret tt
  else ret tt.

(** ** download_youtube_video (lines 6-61) *)

(** The logger class of lines 30-36 and the progress hook, as yt-dlp
    calls them.  An exception of the hook is not caught by yt-dlp: it
    ends the extraction. *)
Definition run_callback (c : callback) : M unit :=
  match c with
  | HookCall d => download_progress d
  | LogDebug _ => ret tt
  | LogWarning _ => ret tt
  | LogError msg => emit (StError ("Download error: " +:+ msg))
  end.

Definition ydl_extract_info (opts : ydl_opts) (url : string)
  : M (option (gmap string pyval)) :=
  fun w =>
    let run := extract_info w opts url in
    let call := YdlExtractInfo url (opt_format opts) (opt_outtmpl opts) in
    match for_each run_callback (run_callbacks run) (run_fs run) with
    | (Ok _, w1, t) => (run_outcome run, w1, call :: t)
    | (Raise e, w1, t) => (Raise e, w1, call :: t)
    end.

Definition os_listdir (dir : string) : M (list string) :=
  fun w => (Ok (listdir w dir), w, []).

(** The loop of lines 52-54: the first name that contains the title. *)
Fixpoint find_file (video_title : pyval) (files : list string)
  : result (option string) :=
  match files with
  | [] => Ok None
  | file :: rest =>
      match py_in_str video_title file with
      | Raise e => Raise e
      | Ok true => Ok (Some file)
      | Ok false => find_file video_title rest
      end
  end.

(** The title line 49 reads from the metadata. *)
Definition title_of (info : gmap string pyval) : pyval :=
  dict_get_default info "title" (PStr "downloaded_video").

Definition make_ydl_opts (output_path quality_option : string) : ydl_opts :=
  {| opt_format := format_selector_of quality_option;
     opt_outtmpl := path_join output_path "%(title)s.%(ext)s";
     opt_no_color := true;
     opt_no_warnings := true;
     opt_ignoreerrors := false;
     opt_no_oversized_thumbnails := true;
     opt_cookiefile := "cookies.txt" |}.

Definition download_youtube_video (url output_path quality_option : string)
  : M (option string) :=
  try_except
    (let ydl_opts := make_ydl_opts output_path quality_option in
     let* info_dict := ydl_extract_info ydl_opts url in
     if falsy_dict info_dict then
       emit (StError "Could not extract video information.") ;;;
       ret None
     else
       let video_title := title_of (default ∅ info_dict) in
       let* files := os_listdir output_path in
       let* found := lift (find_file video_title files) in
       match found with
       | Some file => ret (Some (path_join output_path file))
       | None =>
           emit (StError "Video download failed.") ;;;
           ret None
       end)
    (fun e =>
       emit (StError ("Unexpected error downloading video: " +:+ exn_str e)) ;;;
       ret None).

(** ** trim_video (lines 74-95) *)

Definition clip_open (path : string) : M clip :=
  fun w => (video_file_clip w path, w, [ClipOpen path]).

Definition clip_subclip (c : clip) (t_start t_end : Q) : M clip :=
  fun w => (subclip c t_start t_end, w, [ClipSubclip t_start t_end]).

Definition clip_write_videofile (c : clip) (path : string) : M unit :=
  fun w =>
    match write_videofile w c path with
    | (r, w') => (r, w', [ClipWriteVideofile path])
    end.

(** The test of line 81. *)
Definition invalid_trim_times (start_time end_time video_duration : Q) : bool :=
  Qlt_bool start_time 0
  || Qlt_bool video_duration end_time
  || Qle_bool end_time start_time.

Definition trim_video (input_path : string) (start_time end_time : Q)
    (output_path : string) : M (option string) :=
  try_except
    (let* video := clip_open input_path in
     if invalid_trim_times start_time end_time (duration video) then
       emit (StError "Invalid trim times. Please check and retry.") ;;;
       emit ClipClose ;;;
       ret None
     else
       let* trimmed_video := clip_subclip video start_time end_time in
       clip_write_videofile trimmed_video output_path ;;;
       emit ClipClose ;;;
       emit ClipClose ;;;
       ret (Some output_path))
    (fun e =>
       emit (StError ("Error trimming video: " +:+ exn_str e)) ;;;
       ret None).

(** ** read_file_bytes (lines 97-102) *)

Definition read_file_bytes (file_path : string) : M (list Byte.byte) :=
  fun w => (read_bytes w file_path, w, [FileRead file_path]).

(** ** main (lines 104-201)

    Streamlit runs the script once per interaction; [ui_input] is what
    the widgets return in one run.  A widget the user has not touched
    returns its default.  Page decoration (title, header, expander,
    spinner) leaves no event. *)

Record number_input_widget := {
  ni_label : string;
  ni_min_value : option Q;
  ni_max_value : option Q;
  ni_value : Q;
  ni_step : Q;
}.

(** The value [st.number_input] returns: the user's entry, else the
    default [value]. *)
Definition number_input (wd : number_input_widget) (entry : option Q) : Q :=
  default (ni_value wd) entry.

(** Streamlit accepts an entry only inside the widget's bounds. *)
Definition within_bounds (wd : number_input_widget) (x : Q) : Prop :=
  match ni_min_value wd with Some lo => (lo <= x)%Q | None => True end
  /\ match ni_max_value wd with Some hi => (x <= hi)%Q | None => True end.

Definition accepts (wd : number_input_widget) (entry : option Q) : Prop :=
  match entry with
  | Some x => within_bounds wd x
  | None => True
  end.

(** [st.selectbox(label, options)]: the chosen option, the first one by
    default. *)
Definition selectbox (options : list string) (choice : option nat)
  : option string :=
  options !! default 0%nat choice.

Record ui_input := {
  in_video_url : string;
  in_download_quality : option nat;
  in_download_clicked : bool;
  in_selected_video : option nat;
  in_start_time : option Q;
  in_end_time : option Q;
  in_trim_clicked : bool;
}.

Definition downloads_dir : string := "/app/data/downloads".
Definition trimmed_dir : string := "/app/data/trimmed_videos".

Definition quality_options : list string :=
  ["Best Available"; "Highest Resolution"; "Lowest Resolution"].

(** Line 163 and lines 170-176. *)
Definition start_time_widget : number_input_widget :=
  {| ni_label := "Start Time (minutes)";
     ni_min_value := Some 0%Q;
     ni_max_value := None;
     ni_value := 0%Q;
     ni_step := 1%Q |}.

Definition end_time_widget (max_duration : Q) : number_input_widget :=
  {| ni_label := "End Time (minutes)";
     ni_min_value := Some 0%Q;
     ni_max_value := Some max_duration;
     ni_value := max_duration;
     ni_step := 1%Q |}.

(** [os.path.basename]. *)
Fixpoint basename_from (acc p : string) : string :=
  match p with
  | EmptyString => acc
  | String c p' =>
      if Ascii.eqb c "/"%char then basename_from "" p'
      else basename_from (acc +:+ String c "") p'
  end.

Definition basename (p : string) : string := basename_from "" p.

Definition os_makedirs (path : string) : M unit :=
  fun w => match makedirs w path with (r, w') => (r, w', []) end.

(** The arguments of the call of lines 181-186. *)
Record trim_request := {
  req_input_path : string;
  req_start_time : Q;
  req_end_time : Q;
  req_output_path : string;
}.

Definition trim_request_of (selected_video : string) (start_time end_time : Q)
  : trim_request :=
  let output_filename := "trimmed_" +:+ selected_video in
  {| req_input_path := path_join downloads_dir selected_video;
     req_start_time := (start_time * 60)%Q;
     req_end_time := (end_time * 60)%Q;
     req_output_path := path_join trimmed_dir output_filename |}.

Definition run_trim (r : trim_request) : M (option string) :=
  trim_video (req_input_path r) (req_start_time r) (req_end_time r)
             (req_output_path r).

(** [if path:] on the result of a fetch or a trim, then lines 136-146
    and 189-199. *)
Definition offer_download (path : option string) (success label : string)
  : M unit :=
  match path with
  | Some p =>
      if String.eqb p "" then ret tt
      else
        emit (StSuccess success) ;;;
        let* _ := read_file_bytes p in
        emit (StDownloadButton label (basename p) "video/mp4")
  | None => ret tt
  end.

(** Lines 124-148. *)
Definition download_section (ui : ui_input) : M unit :=
  let download_quality :=
    default "" (selectbox quality_options (in_download_quality ui)) in
  if in_download_clicked ui then
    if negb (String.eqb (in_video_url ui) "") then
      try_except
        (let* downloaded_path :=
           download_youtube_video (in_video_url ui) downloads_dir
                                  download_quality in
         offer_download downloaded_path "Video downloaded successfully!"
                        "Download Original Video")
        (fun e => emit (StError ("Download failed: " +:+ exn_str e)))
    else ret tt
  else ret tt.

(** Lines 150-201. *)
Definition trimming_section (ui : ui_input) : M unit :=
  let* downloaded_videos := os_listdir downloads_dir in
  match downloaded_videos with
  | [] =>
      emit (StWarning "No videos downloaded yet. Please download a video first.")
  | _ :: _ =>
      match selectbox downloaded_videos (in_selected_video ui) with
      | None => ret tt
      | Some selected_video =>
          if String.eqb selected_video "" then ret tt
          else
            let start_time := number_input start_time_widget (in_start_time ui) in
            let video_path := path_join downloads_dir selected_video in
            let* video := clip_open video_path in
            let max_duration := duration video in
            emit ClipClose ;;;
            let end_time :=
              number_input (end_time_widget max_duration) (in_end_time ui) in
            if in_trim_clicked ui then
              let* trimmed_path :=
                run_trim (trim_request_of selected_video start_time end_time) in
              offer_download trimmed_path "Video trimmed successfully!"
                             "Download Trimmed Video"
            else ret tt
      end
  end.

Definition main (ui : ui_input) : M unit :=
  os_makedirs downloads_dir ;;;
  os_makedirs trimmed_dir ;;;
  download_section ui ;;;
  trimming_section ui.

End Program.

(** ** A small executable world

    A disk is a list of media files, each a path with the duration of
    its video; a clip is its duration; the encoder and the float
    arithmetic are exact, and Streamlit turns a progress value outside
    [0, 1] down with one fixed message.  The run of yt-dlp is supplied
    from outside.  The examples below run the program in this world. *)

Definition disk : Type := list (string * Q).

Fixpoint disk_lookup (w : disk) (path : string) : option Q :=
  match w with
  | [] => None
  | (p, d) :: w' => if String.eqb p path then Some d else disk_lookup w' path
  end.

(** The name of [path] inside [dir], when [path] lies directly in it. *)
Definition name_in_dir (dir path : string) : option string :=
  let stem := dir +:+ "/" in
  if String.prefix stem path then
    let name :=
      String.substring (String.length stem)
                       (String.length path - String.length stem) path in
    if str_in "/" name || String.eqb name "" then None else Some name
  else None.

Definition disk_listdir (w : disk) (dir : string) : list string :=
  omap (fun entry => name_in_dir dir (fst entry)) w.

Definition disk_open (w : disk) (path : string) : result Q :=
  match disk_lookup w path with
  | Some d => Ok d
  | None =>
      Raise (LibraryError ("MoviePy error: the file " +:+ path
                           +:+ " could not be found!"))
  end.

Definition disk_read (w : disk) (path : string) : result (list Byte.byte) :=
  match disk_lookup w path with
  | Some _ => Ok []
  | None =>
      Raise (LibraryError ("[Errno 2] No such file or directory: '"
                           +:+ path +:+ "'"))
  end.

Definition disk_write (w : disk) (c : Q) (path : string) : result unit * disk :=
  (Ok tt, (path, c) :: filter (fun entry => fst entry <> path) w).

Definition disk_externals (ydl : disk -> ydl_opts -> string -> ydl_run disk)
  : Externals :=
  {| fs := disk;
     clip := Q;
     listdir := disk_listdir;
     read_bytes := disk_read;
     video_file_clip := disk_open;
     duration := fun c => c;
     subclip := fun _ s e => Ok (e - s)%Q;
     write_videofile := disk_write;
     makedirs := fun w _ => (Ok tt, w);
     extract_info := ydl;
     float_round := fun x => x;
     float_overflows := fun _ => false;
     progress_accepts := fun v => Qle_bool 0 v && Qle_bool v 1;
     progress_rejected := fun _ =>
       LibraryError "Progress Value has invalid value [0.0, 1.0]" |}.

(** A yt-dlp that fails at once, for the examples about trimming. *)
Definition ydl_offline (w : disk) (_ : ydl_opts) (_ : string) : ydl_run disk :=
  {| run_callbacks := [];
     run_fs := w;
     run_outcome := Raise (LibraryError "network unreachable") |}.

Definition offline : Externals := disk_externals ydl_offline.

(** A yt-dlp that saves one file under [saved_name] and reports
    [title]. *)
Definition ydl_saving (saved_name title : string) (seconds : Q)
    (w : disk) (opts : ydl_opts) (_ : string) : ydl_run disk :=
  {| run_callbacks := [];
     run_fs := (w ++ [(path_join downloads_dir saved_name, seconds)])%list;
     run_outcome := Ok (Some {[ "title" := PStr title ]}) |}.

(** A yt-dlp that returns [info] and touches nothing. *)
Definition ydl_returning (info : option (gmap string pyval))
    (w : disk) (_ : ydl_opts) (_ : string) : ydl_run disk :=
  {| run_callbacks := []; run_fs := w; run_outcome := Ok info |}.

(** Two downloads on disk: a ten-minute talk and a short intro. *)
Definition sample_disk : disk :=
  [("/app/data/downloads/talk.mp4", 600%Q);
   ("/app/data/downloads/intro.mp4", 30%Q)].

(** A downloads directory that already holds an older video. *)
Definition older_disk : disk :=
  [("/app/data/downloads/Cats and Dogs.mp4", 45%Q)].

(** A downloads directory that holds "My Cats.mp4" from an earlier
    download. *)
Definition cats_disk : disk :=
  [("/app/data/downloads/My Cats.mp4", 45%Q)].

(** A page run that only presses "Trim Video". *)
Definition press_trim (selected : option nat) (start_entry end_entry : option Q)
  : ui_input :=
  {| in_video_url := "";
     in_download_quality := None;
     in_download_clicked := false;
     in_selected_video := selected;
     in_start_time := start_entry;
     in_end_time := end_entry;
     in_trim_clicked := true |}.

(** ** Reading a run *)

Definition outcome {A W} (r : result A * W * list event) : result A :=
  fst (fst r).
Definition final_fs {A W} (r : result A * W * list event) : W :=
  snd (fst r).
Definition trace {A W} (r : result A * W * list event) : list event :=
  snd r.

Definition is_library_call (ev : event) : bool :=
  match ev with
  | YdlExtractInfo _ _ _ | ClipOpen _ | ClipSubclip _ _
  | ClipWriteVideofile _ | ClipClose => true
  | _ => false
  end.

Definition is_cut_or_write (ev : event) : bool :=
  match ev with
  | ClipSubclip _ _ | ClipWriteVideofile _ => true
  | _ => false
  end.

Definition is_error (ev : event) : bool :=
  match ev with StError _ => true | _ => false end.

Definition is_extract_call (ev : event) : bool :=
  match ev with YdlExtractInfo _ _ _ => true | _ => false end.


(** The events before the first error message. *)
Fixpoint before_error (t : list event) : list event :=
  match t with
  | [] => []
  | ev :: t' => if is_error ev then [] else ev :: before_error t'
  end.

(** ** Claims as predicates *)

(** A trim request with a bad range is turned down before any library
    call: nothing of moviepy is called ahead of the error message. *)
Definition rejects_before_any_call (E : Externals) : Prop :=
  forall (input_path output_path : string) (start_time end_time : Q)
         (w : fs) (c : clip),
    video_file_clip w input_path = Ok c ->
    invalid_trim_times start_time end_time (duration c) = true ->
    filter (fun ev => is_library_call ev = true)
           (before_error
              (trace (trim_video input_path start_time end_time output_path w)))
    = [].









(** Progress dictionaries as yt-dlp builds them for a running
    download; [total_bytes] is [None] when only an estimate exists. *)
Definition progress_dict (downloaded : Z) (total_bytes : option Z)
    (total_bytes_estimate : option Q) : gmap string pyval :=
  {[ "status" := PStr "downloading";
     "downloaded_bytes" := PInt downloaded;
     "total_bytes" := from_option PInt PNone total_bytes;
     "total_bytes_estimate" := from_option PFloat PNone total_bytes_estimate ]}.

(** More bytes arrive than the estimate promised. *)
Definition overshoot : list (gmap string pyval) :=
  [progress_dict 150 None (Some 100%Q)].




(** How often yt-dlp was asked to extract. *)
Definition extract_calls (t : list event) : nat :=
  length (List.filter is_extract_call t).

(** The three ways a fetch fails, each with the message it ends in:
    no metadata, no file that matches the title, an exception. *)
Inductive fetch_failure (files : list string)
  : result (option (gmap string pyval)) -> string -> Prop :=
| NoMetadata (info : option (gmap string pyval)) :
    falsy_dict info = true ->
    fetch_failure files (Ok info) "Could not extract video information."
| NotLocated (info : gmap string pyval) (t : string) :
    falsy_dict (Some info) = false ->
    title_of info = PStr t ->
    List.find (str_in t) files = None ->
    fetch_failure files (Ok (Some info)) "Video download failed."
| LibraryRaised (e : exn) :
    fetch_failure files (Raise e)
                  ("Unexpected error downloading video: " +:+ exn_str e).

(** ** Further readings of a run, and a world where calls fail *)

Definition is_close (ev : event) : bool :=
  match ev with ClipClose => true | _ => false end.

Definition is_write_to (path : string) (ev : event) : bool :=
  match ev with
  | ClipWriteVideofile p => String.eqb p path
  | _ => true
  end.

Definition is_write (ev : event) : bool :=
  match ev with ClipWriteVideofile _ => true | _ => false end.

Definition is_progress (ev : event) : bool :=
  match ev with StProgress _ => true | _ => false end.

(** The messages the logger of lines 30-36 puts on the page. *)
Definition logger_output (cs : list callback) : list event :=
  omap (fun c => match c with
                 | LogError msg => Some (StError ("Download error: " +:+ msg))
                 | _ => None
                 end) cs.

Definition is_hook_call (c : callback) : bool :=
  match c with HookCall _ => true | _ => false end.

(** The disk world with switches: moviepy may fail to open or to write
    (leaving an empty file behind), and reading bytes may fail. *)
Definition faulty_externals
    (ydl : disk -> ydl_opts -> string -> ydl_run disk)
    (can_open can_write can_read : bool) : Externals :=
  {| fs := disk;
     clip := Q;
     listdir := disk_listdir;
     read_bytes := fun w path =>
       if can_read then disk_read w path
       else Raise (LibraryError ("[Errno 13] Permission denied: '"
                                 +:+ path +:+ "'"));
     video_file_clip := fun w path =>
       if can_open then disk_open w path
       else Raise (LibraryError
                     ("MoviePy error: failed to read the duration of file "
                      +:+ path));
     duration := fun c => c;
     subclip := fun _ s e => Ok (e - s)%Q;
     write_videofile := fun w c path =>
       if can_write then disk_write w c path
       else (Raise (LibraryError "[Errno 28] No space left on device"),
             (path, 0%Q) :: w);
     makedirs := fun w _ => (Ok tt, w);
     extract_info := ydl;
     float_round := fun x => x;
     float_overflows := fun _ => false;
     progress_accepts := fun v => Qle_bool 0 v && Qle_bool v 1;
     progress_rejected := fun _ =>
       LibraryError "Progress Value has invalid value [0.0, 1.0]" |}.

(** A yt-dlp that only logs: a debug line, a warning, two errors. *)
Definition ydl_logging (w : disk) (_ : ydl_opts) (_ : string) : ydl_run disk :=
  {| run_callbacks :=
       [LogDebug "[youtube] Extracting URL";
        LogWarning "Falling back on generic information extractor";
        LogError "ERROR: Video unavailable";
        LogError "ERROR: Sign in to confirm your age"];
     run_fs := w;
     run_outcome := Ok None |}.

(** A page run that only presses "Download Video". *)
Definition press_download (url : string) (quality : option nat) : ui_input :=
  {| in_video_url := url;
     in_download_quality := quality;
     in_download_clicked := true;
     in_selected_video := None;
     in_start_time := None;
     in_end_time := None;
     in_trim_clicked := false |}.

(** ** Basic facts *)

Lemma Qlt_bool_true (a b : Q) : Qlt_bool a b = true <-> (a < b)%Q.
Proof.
  unfold Qlt_bool. rewrite negb_true_iff.
  destruct (Qle_bool b a) eqn:Hle.
  - apply Qle_bool_iff in Hle. split; [discriminate|].
    intros Hlt. exfalso. exact (Qlt_not_le _ _ Hlt Hle).
  - split; [intros _|reflexivity].
    apply Qnot_le_lt. intros Hle'. apply Qle_bool_iff in Hle'. congruence.
Qed.

Lemma Qlt_bool_false (a b : Q) : Qlt_bool a b = false <-> (b <= a)%Q.
Proof.
  unfold Qlt_bool. rewrite negb_false_iff. apply Qle_bool_iff.
Qed.

Lemma invalid_trim_times_true (s e d : Q) :
  invalid_trim_times s e d = true <-> (s < 0 \/ d < e \/ e <= s)%Q.
Proof.
  unfold invalid_trim_times.
  rewrite !orb_true_iff, !Qlt_bool_true, Qle_bool_iff. tauto.
Qed.

Lemma invalid_trim_times_false (s e d : Q) :
  invalid_trim_times s e d = false <-> (0 <= s /\ s < e /\ e <= d)%Q.
Proof.
  unfold invalid_trim_times.
  rewrite !orb_false_iff, !Qlt_bool_false.
  split.
  - intros [[Hs Hd] He]. repeat split; try assumption.
    apply Qlt_bool_true. unfold Qlt_bool. rewrite He. reflexivity.
  - intros (Hs & Hse & Hd). repeat split; try assumption.
    apply Qlt_bool_true in Hse. unfold Qlt_bool in Hse.
    apply negb_true_iff in Hse. exact Hse.
Qed.

Section TrimmerFacts.
Context {E : Externals}.

(** What [trim_video] does once the source is open and the range is
    bad: lines 82-84. *)
Lemma trim_video_rejected (input_path output_path : string)
    (start_time end_time : Q) (w : fs) (c : clip) :
  video_file_clip w input_path = Ok c ->
  invalid_trim_times start_time end_time (duration c) = true ->
  trim_video input_path start_time end_time output_path w
  = (Ok None, w,
     [ClipOpen input_path;
      StError "Invalid trim times. Please check and retry.";
      ClipClose]).
Proof.
  intros Hopen Hbad.
  unfold trim_video, try_except, bind, clip_open.
  rewrite Hopen, Hbad. reflexivity.
Qed.

(** What it does when the source cannot be opened: lines 93-95. *)
Lemma trim_video_unreadable (input_path output_path : string)
    (start_time end_time : Q) (w : fs) (e : exn) :
  video_file_clip w input_path = Raise e ->
  trim_video input_path start_time end_time output_path w
  = (Ok None, w,
     [ClipOpen input_path; StError ("Error trimming video: " +:+ exn_str e)]).
Proof.
  intros Hopen.
  unfold trim_video, try_except, bind, clip_open.
  rewrite Hopen. reflexivity.
Qed.

(** What it does on a good range when both library calls succeed:
    lines 86-92. *)
Lemma trim_video_written (input_path output_path : string)
    (start_time end_time : Q) (w w' : fs) (c c' : clip) :
  video_file_clip w input_path = Ok c ->
  invalid_trim_times start_time end_time (duration c) = false ->
  subclip c start_time end_time = Ok c' ->
  write_videofile w c' output_path = (Ok tt, w') ->
  trim_video input_path start_time end_time output_path w
  = (Ok (Some output_path), w',
     [ClipOpen input_path; ClipSubclip start_time end_time;
      ClipWriteVideofile output_path; ClipClose; ClipClose]).
Proof.
  intros Hopen Hgood Hsub Hwrite.
  unfold trim_video, try_except, bind, clip_open, clip_subclip,
    clip_write_videofile.
  rewrite Hopen, Hgood, Hsub, Hwrite. reflexivity.
Qed.

(** C1. For every trim request with an invalid range (start below 0,
    end not after start, or end beyond the duration of the source),
    [trim_video] returns [None], leaves the file system as it found
    it, calls neither [subclip] nor [write_videofile], and shows an
    error message. *)
Theorem trim_invalid_range_no_file (input_path output_path : string)
    (start_time end_time : Q) (w : fs) :
  (start_time < 0)%Q \/ (end_time <= start_time)%Q
  \/ (exists c, video_file_clip w input_path = Ok c
                /\ (duration c < end_time)%Q) ->
  let r := trim_video input_path start_time end_time output_path w in
  outcome r = Ok None
  /\ final_fs r = w
  /\ filter (fun ev => is_cut_or_write ev = true) (trace r) = []
  /\ (exists msg, StError msg ∈ trace r).
Proof.
  intros Hbad r. subst r.
  destruct (video_file_clip w input_path) as [c|e] eqn:Hopen.
  - assert (Hinv : invalid_trim_times start_time end_time (duration c) = true).
    { apply invalid_trim_times_true.
      destruct Hbad as [H|[H|(c0 & Hc0 & H)]]; [tauto|tauto|].
      injection Hc0 as ->. tauto. }
    rewrite (trim_video_rejected _ _ _ _ _ _ Hopen Hinv).
    repeat split; try reflexivity.
    unfold trace; simpl. eexists. rewrite !elem_of_cons. right; left; reflexivity.
  - rewrite (trim_video_unreadable _ _ _ _ _ _ Hopen).
    repeat split; try reflexivity.
    unfold trace; simpl. eexists. rewrite !elem_of_cons. right; left; reflexivity.
Qed.

(** C4, as the code has it.  For every trim request with a bad range on
    a source that opens, the calls are, in order: open the source (its
    duration is needed by the test), show the error, close the source.
    Nothing is cut or written, the file system is unchanged and the
    result is [None]. *)
Theorem trim_bad_range_only_opens_source (input_path output_path : string)
    (start_time end_time : Q) (w : fs) (c : clip) :
  video_file_clip w input_path = Ok c ->
  (start_time < 0 \/ duration c < end_time \/ end_time <= start_time)%Q ->
  let r := trim_video input_path start_time end_time output_path w in
  trace r = [ClipOpen input_path;
             StError "Invalid trim times. Please check and retry.";
             ClipClose]
  /\ before_error (trace r) = [ClipOpen input_path]
  /\ filter (fun ev => is_cut_or_write ev = true) (trace r) = []
  /\ final_fs r = w
  /\ outcome r = Ok None.
Proof.
  intros Hopen Hbad r. subst r.
  apply invalid_trim_times_true in Hbad.
  rewrite (trim_video_rejected _ _ _ _ _ _ Hopen Hbad).
  repeat split; reflexivity.
Qed.

End TrimmerFacts.

Section PageFacts.
Context {E : Externals}.

(** The path the page writes a trimmed file to. *)
Lemma trim_request_output_path (selected_video : string) (s e : Q) :
  req_output_path (trim_request_of selected_video s e)
  = "/app/data/trimmed_videos/trimmed_" +:+ selected_video.
Proof. reflexivity. Qed.

(** One run of the trimming part of the page up to the press of the
    button: the listing, the selection and the duration query. *)
Lemma trimming_section_pressed (ui : ui_input) (w : fs)
    (selected_video : string) (c : clip) :
  selectbox (listdir w downloads_dir) (in_selected_video ui)
  = Some selected_video ->
  selected_video <> "" ->
  video_file_clip w (path_join downloads_dir selected_video) = Ok c ->
  in_trim_clicked ui = true ->
  trimming_section ui w
  = let req :=
      trim_request_of selected_video
        (number_input start_time_widget (in_start_time ui))
        (number_input (end_time_widget (duration c)) (in_end_time ui)) in
    match bind (run_trim req)
               (fun trimmed_path =>
                  offer_download trimmed_path "Video trimmed successfully!"
                                 "Download Trimmed Video") w with
    | (r, w', t) =>
        (r, w',
         ClipOpen (path_join downloads_dir selected_video) :: ClipClose :: t)
    end.
Proof.
  intros Hsel Hne Hopen Hclick.
  unfold trimming_section, os_listdir.
  unfold bind at 1.
  destruct (listdir w downloads_dir) as [|name names] eqn:Hls.
  { unfold selectbox in Hsel. rewrite lookup_nil in Hsel. discriminate. }
  rewrite Hsel.
  apply String.eqb_neq in Hne. rewrite Hne.
  unfold bind at 1, clip_open. rewrite Hopen, Hclick.
  unfold bind at 1, emit.
  cbv zeta.
  match goal with
  | |- context [bind ?m ?k w] => destruct (bind m k w) as [[r w'] t]
  end.
  reflexivity.
Qed.

(** C3. For every selected video whose duration [d] is positive, a
    press of "Trim Video" with the end-time field left at its default
    hands [60 * d] seconds to [trim_video] as the end; this exceeds
    [d], so the trim is turned down with the invalid-times message,
    and the file system is left as it was. *)
Theorem default_end_time_is_rejected (ui : ui_input) (w : fs)
    (selected_video : string) (c : clip) :
  selectbox (listdir w downloads_dir) (in_selected_video ui)
  = Some selected_video ->
  selected_video <> "" ->
  video_file_clip w (path_join downloads_dir selected_video) = Ok c ->
  (0 < duration c)%Q ->
  in_end_time ui = None ->
  in_trim_clicked ui = true ->
  let req :=
    trim_request_of selected_video
      (number_input start_time_widget (in_start_time ui))
      (number_input (end_time_widget (duration c)) (in_end_time ui)) in
  (req_end_time req == 60 * duration c)%Q
  /\ (duration c < req_end_time req)%Q
  /\ run_trim req w
     = (Ok None, w,
        [ClipOpen (path_join downloads_dir selected_video);
         StError "Invalid trim times. Please check and retry.";
         ClipClose])
  /\ trimming_section ui w
     = (Ok tt, w,
        [ClipOpen (path_join downloads_dir selected_video);
         ClipClose;
         ClipOpen (path_join downloads_dir selected_video);
         StError "Invalid trim times. Please check and retry.";
         ClipClose]).
Proof.
  intros Hsel Hne Hopen Hpos Hend Hclick req.
  assert (Hreq : (req_end_time req == 60 * duration c)%Q).
  { subst req. rewrite Hend. simpl. ring. }
  assert (Hlt : (duration c < req_end_time req)%Q) by (rewrite Hreq; lra).
  assert (Hrun : run_trim req w
                 = (Ok None, w,
                    [ClipOpen (path_join downloads_dir selected_video);
                     StError "Invalid trim times. Please check and retry.";
                     ClipClose])).
  { unfold run_trim. apply trim_video_rejected with (c := c).
    - exact Hopen.
    - apply invalid_trim_times_true. right; left. exact Hlt. }
  repeat split; try assumption.
  rewrite (trimming_section_pressed ui w selected_video c Hsel Hne Hopen Hclick).
  cbv zeta. fold req. unfold bind at 1. rewrite Hrun.
  reflexivity.
Qed.

(** C10. Every call of [trim_video] the page makes takes its start from
    the start-time field, whose minimum is 0, times 60.  Whenever a
    run of the page reaches the call, the start passed is not
    negative, the test [start_time < 0] of line 81 is false, and the
    validation reduces to its two other tests. *)
Theorem page_start_time_not_negative (ui : ui_input) (w : fs)
    (selected_video : string) (c : clip) :
  accepts start_time_widget (in_start_time ui) ->
  selectbox (listdir w downloads_dir) (in_selected_video ui)
  = Some selected_video ->
  selected_video <> "" ->
  video_file_clip w (path_join downloads_dir selected_video) = Ok c ->
  in_trim_clicked ui = true ->
  let req :=
    trim_request_of selected_video
      (number_input start_time_widget (in_start_time ui))
      (number_input (end_time_widget (duration c)) (in_end_time ui)) in
  trimming_section ui w
  = match bind (run_trim req)
               (fun trimmed_path =>
                  offer_download trimmed_path "Video trimmed successfully!"
                                 "Download Trimmed Video") w with
    | (r, w', t) =>
        (r, w',
         ClipOpen (path_join downloads_dir selected_video) :: ClipClose :: t)
    end
  /\ (0 <= req_start_time req)%Q
  /\ Qlt_bool (req_start_time req) 0 = false
  /\ (forall d : Q,
        invalid_trim_times (req_start_time req) (req_end_time req) d
        = Qlt_bool d (req_end_time req)
          || Qle_bool (req_end_time req) (req_start_time req)).
Proof.
  intros Hok Hsel Hne Hopen Hclick req.
  assert (Hge : (0 <= req_start_time req)%Q).
  { subst req. simpl. destruct (in_start_time ui) as [x|]; simpl.
    - destruct Hok as [Hlo _]. simpl in Hlo. lra.
    - lra. }
  assert (Hb : Qlt_bool (req_start_time req) 0 = false)
    by (apply Qlt_bool_false; exact Hge).
  split; [exact (trimming_section_pressed ui w selected_video c
                   Hsel Hne Hopen Hclick)|].
  split; [exact Hge|]. split; [exact Hb|].
  intros d. unfold invalid_trim_times. rewrite Hb. reflexivity.
Qed.

(** C7. For every range the page passes with [0 <= start < end <=
    duration] (in seconds), when moviepy keeps its contract and both
    its calls succeed, the trim returns the path
    [/app/data/trimmed_videos/trimmed_<source name>], and the file now
    at that path lasts [end - start] up to the encoder's tolerance. *)
Theorem trim_valid_range_output (tolerance : Q) (selected_video : string)
    (start_time end_time : Q) (w w' : fs) (c c' : clip) :
  subclip_contract E ->
  write_contract E tolerance ->
  let req := trim_request_of selected_video start_time end_time in
  video_file_clip w (req_input_path req) = Ok c ->
  (0 <= req_start_time req)%Q ->
  (req_start_time req < req_end_time req)%Q ->
  (req_end_time req <= duration c)%Q ->
  subclip c (req_start_time req) (req_end_time req) = Ok c' ->
  write_videofile w c' (req_output_path req) = (Ok tt, w') ->
  let out := "/app/data/trimmed_videos/trimmed_" +:+ selected_video in
  outcome (run_trim req w) = Ok (Some out)
  /\ final_fs (run_trim req w) = w'
  /\ ClipWriteVideofile out ∈ trace (run_trim req w)
  /\ exists produced,
       video_file_clip w' out = Ok produced
       /\ (Qabs (duration produced - (req_end_time req - req_start_time req))
           <= tolerance)%Q.
Proof.
  intros Hsub Hwrite req Hopen H0 Hlt Hle Hcut Hout out.
  assert (Hgood : invalid_trim_times (req_start_time req) (req_end_time req)
                                     (duration c) = false)
    by (apply invalid_trim_times_false; auto).
  unfold run_trim.
  rewrite (trim_video_written _ _ _ _ _ _ _ _ Hopen Hgood Hcut Hout).
  change (req_output_path req) with out in *.
  split; [reflexivity|]. split; [reflexivity|]. split.
  - unfold trace; cbn [snd]. rewrite !elem_of_cons.
    right; right; left; reflexivity.
  - destruct (Hwrite _ _ _ _ Hout) as (produced & Hp & Htol).
    exists produced. split; [exact Hp|].
    pose proof (Hsub _ _ _ _ H0 Hlt Hle Hcut) as Hlen.
    rewrite <- Hlen. exact Htol.
Qed.

End PageFacts.

(** ** The Fetcher *)

(** [str_in] is the substring test: the needle sits somewhere inside. *)
Lemma append_cons (x : ascii) (a b : string) :
  String x a +:+ b = String x (a +:+ b).
Proof. reflexivity. Qed.

Lemma prefix_split (a b : string) :
  String.prefix a b = true <-> exists post, b = a +:+ post.
Proof.
  revert b. induction a as [|x a IH]; intros b.
  - split; [intros _; exists b; reflexivity|intros _; destruct b; reflexivity].
  - destruct b as [|y b]; simpl.
    + split; [discriminate|intros [post H]; discriminate].
    + destruct (Ascii.ascii_dec x y) as [->|Hne].
      * rewrite IH. split; intros [post H]; exists post;
          rewrite append_cons in *; congruence.
      * split; [discriminate|].
        intros [post H]. rewrite append_cons in H. congruence.
Qed.

Lemma str_in_split (needle hay : string) :
  str_in needle hay = true
  <-> exists pre post, hay = pre +:+ needle +:+ post.
Proof.
  induction hay as [|y hay IH].
  - change (str_in needle "") with (String.prefix needle "" || false).
    rewrite orb_true_iff. split.
    + intros [H|H]; [|discriminate].
      apply prefix_split in H as [post H]. exists "", post. exact H.
    + intros (pre & post & H). left. apply prefix_split.
      destruct pre; [exists post; exact H|].
      rewrite append_cons in H. discriminate.
  - change (str_in needle (String y hay))
      with (String.prefix needle (String y hay) || str_in needle hay).
    rewrite orb_true_iff, IH. split.
    + intros [H|(pre & post & H)].
      * apply prefix_split in H as [post H]. exists "", post. exact H.
      * exists (String y pre), post. rewrite append_cons. congruence.
    + intros (pre & post & H). destruct pre as [|x pre].
      * left. apply prefix_split. exists post. exact H.
      * right. exists pre, post. rewrite append_cons in H. congruence.
Qed.

(** The loop of lines 52-54 on a string title: the first match. *)
Lemma find_file_first_match (t : string) (files : list string) :
  find_file (PStr t) files = Ok (List.find (str_in t) files).
Proof.
  induction files as [|file rest IH]; simpl; [reflexivity|].
  destruct (str_in t file); [reflexivity|exact IH].
Qed.

Section FetcherFacts.
Context {E : Externals}.

Lemma download_progress_no_extract (d : gmap string pyval) (w : fs) :
  extract_calls (trace (download_progress d w)) = 0%nat
  /\ final_fs (download_progress d w) = w.
Proof.
  unfold download_progress, st_progress, bind, lift, emit, raise, ret.
  destruct (dict_getitem d "status") as [status|e]; [|split; reflexivity].
  destruct (py_eq_str status "downloading"); [|split; reflexivity].
  destruct (py_gt (hook_total d) (PInt 0)) as [[|]|e]; try (split; reflexivity).
  destruct (py_truediv (hook_downloaded d) (hook_total d)) as [ratio|e];
    [|split; reflexivity].
  destruct (progress_accepts _); split; reflexivity.
Qed.

Lemma extract_calls_app (t1 t2 : list event) :
  extract_calls (t1 ++ t2) = (extract_calls t1 + extract_calls t2)%nat.
Proof.
  unfold extract_calls. rewrite List.filter_app, length_app. reflexivity.
Qed.

Lemma callbacks_no_extract (cs : list callback) (w : fs) :
  extract_calls (trace (for_each run_callback cs w)) = 0%nat.
Proof.
  revert w. induction cs as [|c cs IH]; intros w; [reflexivity|].
  simpl. unfold bind.
  assert (Hc : extract_calls (trace (run_callback c w)) = 0%nat
               /\ final_fs (run_callback c w) = w).
  { destruct c; simpl; try (split; reflexivity).
    apply download_progress_no_extract. }
  destruct (run_callback c w) as [[[u|e] w1] t1]; unfold trace, final_fs in Hc;
    simpl in Hc; destruct Hc as [Ht ->]; [|exact Ht].
  specialize (IH w).
  destruct (for_each run_callback cs w) as [[r w2] t2].
  unfold trace in *; simpl in *. rewrite extract_calls_app. lia.
Qed.

(** yt-dlp is asked exactly once per call of the wrapper. *)
Lemma ydl_extract_info_once (opts : ydl_opts) (url : string) (w : fs) :
  extract_calls (trace (ydl_extract_info opts url w)) = 1%nat.
Proof.
  unfold ydl_extract_info.
  pose proof (callbacks_no_extract
                (run_callbacks (extract_info w opts url))
                (run_fs (extract_info w opts url))) as H.
  destruct (for_each run_callback _ _) as [[[u|e] w1] t];
    unfold trace in *; simpl in *; unfold extract_calls in *; simpl;
    rewrite H; reflexivity.
Qed.

(** [download_youtube_video] read off the result of the extraction. *)
Lemma download_youtube_video_run (url output_path quality_option : string)
    (w : fs) :
  download_youtube_video url output_path quality_option w
  = match ydl_extract_info (make_ydl_opts output_path quality_option) url w with
    | (Raise e, w1, t) =>
        (Ok None, w1,
         t ++ [StError ("Unexpected error downloading video: " +:+ exn_str e)])%list
    | (Ok info_dict, w1, t) =>
        if falsy_dict info_dict then
          (Ok None, w1, t ++ [StError "Could not extract video information."])%list
        else
          match find_file (title_of (default ∅ info_dict))
                          (listdir w1 output_path) with
          | Ok (Some file) => (Ok (Some (path_join output_path file)), w1, t)
          | Ok None => (Ok None, w1, t ++ [StError "Video download failed."])%list
          | Raise e =>
              (Ok None, w1,
               t ++ [StError ("Unexpected error downloading video: "
                              +:+ exn_str e)])%list
          end
    end.
Proof.
  unfold download_youtube_video, try_except.
  unfold bind at 1.
  destruct (ydl_extract_info _ url w) as [[[info_dict|e] w1] t]; simpl;
    [|reflexivity].
  destruct (falsy_dict info_dict); [reflexivity|].
  unfold bind, os_listdir, lift, emit, ret. simpl.
  destruct (find_file _ _) as [[file|]|e]; simpl;
    rewrite ?app_nil_r; reflexivity.
Qed.

End FetcherFacts.

(** C6. The quality option is mapped by a function: "Highest
    Resolution" gives the best combined video+audio selector, "Lowest
    Resolution" the worst combined one, "Best Available" the best
    single container, and so does every other value; the selector
    handed to yt-dlp is the value of this function. *)
Theorem quality_mapping_total :
  format_selector_of "Highest Resolution"
  = "bestvideo[ext=mp4]+bestaudio[ext=m4a]/best[ext=mp4]"
  /\ format_selector_of "Lowest Resolution"
     = "worstvideo[ext=mp4]+worstaudio[ext=m4a]/worst[ext=mp4]"
  /\ format_selector_of "Best Available" = "best[ext=mp4]"
  /\ (forall quality_option : string,
        quality_option <> "Highest Resolution" ->
        quality_option <> "Lowest Resolution" ->
        format_selector_of quality_option = "best[ext=mp4]")
  /\ (forall output_path quality_option : string,
        opt_format (make_ydl_opts output_path quality_option)
        = format_selector_of quality_option).
Proof.
  repeat split.
  intros quality_option Hhigh Hlow. unfold format_selector_of.
  apply String.eqb_neq in Hhigh, Hlow. rewrite Hhigh, Hlow. reflexivity.
Qed.

(** The first element of a list that passes a test. *)
Lemma list_find_first {A : Type} (p : A -> bool) (l : list A) (x : A) :
  List.find p l = Some x
  <-> exists l1 l2,
        l = (l1 ++ x :: l2)%list /\ p x = true
        /\ Forall (fun y => p y = false) l1.
Proof.
  induction l as [|y l IH]; cbn [List.find].
  - split; [discriminate|]. intros (l1 & l2 & Hl & _). destruct l1; discriminate.
  - destruct (p y) eqn:Hy.
    + split.
      * intros [= <-]. exists [], l. repeat split; [exact Hy|constructor].
      * intros (l1 & l2 & Hl & Hx & Hbefore).
        destruct l1 as [|z l1]; cbn in Hl; injection Hl as <- Hl;
          [reflexivity|].
        apply Forall_cons in Hbefore as [Hz _]. congruence.
    + rewrite IH. split.
      * intros (l1 & l2 & -> & Hx & Hbefore).
        exists (y :: l1), l2. repeat split; [exact Hx|].
        constructor; assumption.
      * intros (l1 & l2 & Hl & Hx & Hbefore).
        destruct l1 as [|z l1]; cbn in Hl; injection Hl as <- Hl.
        -- congruence.
        -- apply Forall_cons in Hbefore as [_ Hbefore].
           exists l1, l2. auto.
Qed.

Lemma list_find_nothing {A : Type} (p : A -> bool) (l : list A) :
  List.find p l = None <-> Forall (fun y => p y = false) l.
Proof.
  induction l as [|y l IH]; cbn [List.find].
  - split; [constructor|reflexivity].
  - destruct (p y) eqn:Hy.
    + split; [discriminate|].
      intros H. apply Forall_cons in H as [Hy' _]. congruence.
    + rewrite IH. split.
      * intros H. constructor; assumption.
      * intros H. apply Forall_cons in H as [_ H]. exact H.
Qed.

(** A name does not contain the title. *)
Lemma str_in_nowhere (t g : string) :
  str_in t g = false <-> forall pre post, g <> pre +:+ t +:+ post.
Proof.
  split.
  - intros Hf pre post ->.
    assert (str_in t (pre +:+ t +:+ post) = true)
      by (apply str_in_split; eauto).
    congruence.
  - intros Hn. destruct (str_in t g) eqn:Hg; [|reflexivity].
    apply str_in_split in Hg as (pre & post & ->).
    exfalso. exact (Hn pre post eq_refl).
Qed.

(** C8. After the extraction the Fetcher recovers the path from the
    listing of the output directory: it returns [path] exactly when
    the listing is [l1 ++ file :: l2], [file] is [pre ++ title ++ post]
    for some [pre] and [post], no name of [l1] contains the title, and
    [path] is [file] joined to the output directory; it returns no
    file exactly when no listed name contains the title.  So an older
    "My Cats.mp4", listed first, is returned for the new "Cats", and
    a file saved as "Fast_ Cars.mp4" is not found for the title
    "Fast: Cars". *)
Theorem fetch_returns_first_title_match :
  (forall (E : Externals) (url output_path quality_option : string) (w : fs)
          (info : gmap string pyval) (t : string),
      let run :=
        ydl_extract_info (make_ydl_opts output_path quality_option) url w in
      outcome run = Ok (Some info) ->
      falsy_dict (Some info) = false ->
      title_of info = PStr t ->
      let files := listdir (final_fs run) output_path in
      let r := download_youtube_video url output_path quality_option w in
      (forall path : string,
          outcome r = Ok (Some path)
          <-> exists l1 file l2,
                files = (l1 ++ file :: l2)%list
                /\ (exists pre post, file = pre +:+ t +:+ post)
                /\ Forall (fun g => forall pre post, g <> pre +:+ t +:+ post) l1
                /\ path = path_join output_path file)
      /\ (outcome r = Ok None
          <-> Forall (fun g => forall pre post, g <> pre +:+ t +:+ post) files))
  /\ outcome (download_youtube_video
                (E := disk_externals (ydl_saving "Cats.mp4" "Cats" 120))
                "https://youtu.be/cats" downloads_dir "Best Available"
                cats_disk)
     = Ok (Some "/app/data/downloads/My Cats.mp4")
  /\ download_youtube_video
       (E := disk_externals (ydl_saving "Fast_ Cars.mp4" "Fast: Cars" 120))
       "https://youtu.be/cars" downloads_dir "Best Available" older_disk
     = (Ok None,
        [("/app/data/downloads/Cats and Dogs.mp4", 45%Q);
         ("/app/data/downloads/Fast_ Cars.mp4", 120%Q)],
        [YdlExtractInfo "https://youtu.be/cars" "best[ext=mp4]"
                        "/app/data/downloads/%(title)s.%(ext)s";
         StError "Video download failed."]).
Proof.
  split; [|split; vm_compute; reflexivity].
  intros E url output_path quality_option w info t run Hrun Hinfo Htitle files r.
  assert (Hr : outcome r
               = Ok (path_join output_path <$> List.find (str_in t) files)).
  { subst r files. rewrite download_youtube_video_run. fold run.
    destruct run as [[o w1] tr]. unfold outcome, final_fs in *.
    cbn [fst snd] in *. subst o. rewrite Hinfo.
    change (title_of (default ∅ (Some info))) with (title_of info).
    rewrite Htitle, find_file_first_match.
    destruct (List.find (str_in t) (listdir w1 output_path)); reflexivity. }
  rewrite Hr. split.
  - intros path. split.
    + destruct (List.find (str_in t) files) as [file|] eqn:Hfind;
        [|discriminate].
      cbn. intros [= <-].
      apply list_find_first in Hfind as (l1 & l2 & Hl & Hin & Hbefore).
      exists l1, file, l2. split; [exact Hl|]. split.
      * apply str_in_split. exact Hin.
      * split; [|reflexivity].
        eapply Forall_impl; [exact Hbefore|].
        intros g Hg. apply str_in_nowhere. exact Hg.
    + intros (l1 & file & l2 & Hl & Hin & Hbefore & ->).
      assert (Hfind : List.find (str_in t) files = Some file).
      { apply list_find_first. exists l1, l2. split; [exact Hl|]. split.
        - apply str_in_split. exact Hin.
        - eapply Forall_impl; [exact Hbefore|].
          intros g Hg. apply str_in_nowhere. exact Hg. }
      rewrite Hfind. reflexivity.
  - split.
    + destruct (List.find (str_in t) files) as [file|] eqn:Hfind;
        [discriminate|]. intros _.
      apply list_find_nothing in Hfind.
      eapply Forall_impl; [exact Hfind|].
      intros g Hg. apply str_in_nowhere. exact Hg.
    + intros Hall.
      assert (Hfind : List.find (str_in t) files = None).
      { apply list_find_nothing. eapply Forall_impl; [exact Hall|].
        intros g Hg. apply str_in_nowhere. exact Hg. }
      rewrite Hfind. reflexivity.
Qed.

(** C9. When the extraction returns no metadata, or no name in the
    output directory contains the title, or yt-dlp raises, the fetch
    returns [None], its last output is the error message of that
    case, and yt-dlp has been asked exactly once. *)
Theorem fetch_failure_reported (E : Externals)
    (url output_path quality_option : string) (w : fs) (msg : string) :
  let run := ydl_extract_info (make_ydl_opts output_path quality_option) url w in
  fetch_failure (listdir (final_fs run) output_path) (outcome run) msg ->
  let r := download_youtube_video url output_path quality_option w in
  outcome r = Ok None
  /\ last (trace r) = Some (StError msg)
  /\ extract_calls (trace r) = 1%nat.
Proof.
  intros run Hfail r. subst r.
  pose proof (ydl_extract_info_once
                (make_ydl_opts output_path quality_option) url w) as Honce.
  rewrite download_youtube_video_run. fold run in Honce |- *.
  destruct run as [[o w1] t]. unfold outcome, final_fs, trace in *.
  cbn [fst snd] in *.
  inversion Hfail as [info Hfalsy|info title Hfalsy Htitle Hfind|e]; subst.
  - rewrite Hfalsy. cbn [fst snd].
    rewrite last_snoc, extract_calls_app, Honce. repeat split.
  - rewrite Hfalsy.
    change (title_of (default ∅ (Some info))) with (title_of info).
    rewrite Htitle, find_file_first_match, Hfind. cbn [fst snd].
    rewrite last_snoc, extract_calls_app, Honce. repeat split.
  - cbn [fst snd]. rewrite last_snoc, extract_calls_app, Honce. repeat split.
Qed.

(** ** The progress hook *)

Section ProgressFacts.
Context {E : Externals}.

Lemma float_round_eq (x y : Q) :
  float_laws E -> (x == y)%Q -> (float_round x == float_round y)%Q.
Proof.
  intros (Hmono & _) Hxy. apply Qle_antisym; apply Hmono; rewrite Hxy;
    apply Qle_refl.
Qed.













End ProgressFacts.

(** C2, evaluated.  For a ten-minute source (600 seconds) the end-time
    field is labelled in minutes, yet its upper bound and its default
    are 600, the duration in seconds; the seconds handed on for that
    entry are 36000.  Ten, the duration in minutes, is not the bound. *)
Theorem end_time_bound_of_ten_minute_source :
  let wd := end_time_widget 600 in
  ni_label wd = "End Time (minutes)"
  /\ ni_max_value wd = Some 600%Q
  /\ number_input wd None = 600%Q
  /\ req_end_time (trim_request_of "talk.mp4" 0 (number_input wd None))
     = 36000%Q
  /\ ~ (600 == 10)%Q
  /\ trimming_section (E := disk_externals ydl_offline)
       (press_trim None None None) sample_disk
     = (Ok tt, sample_disk,
        [ClipOpen "/app/data/downloads/talk.mp4"; ClipClose;
         ClipOpen "/app/data/downloads/talk.mp4";
         StError "Invalid trim times. Please check and retry.";
         ClipClose]).
Proof.
  cbv zeta. repeat split; try (vm_compute; reflexivity).
  intros H. vm_compute in H. discriminate.
Qed.

(** ** The claims on concrete runs *)

(** One run of the whole page: the talk is cut from minute 2 to
    minute 5 and offered for download. *)
Example main_trims_the_talk :
  main (E := offline) (press_trim None (Some 2%Q) (Some 5%Q)) sample_disk
  = (Ok tt,
     [("/app/data/trimmed_videos/trimmed_talk.mp4", 180%Q);
      ("/app/data/downloads/talk.mp4", 600%Q);
      ("/app/data/downloads/intro.mp4", 30%Q)],
     [ClipOpen "/app/data/downloads/talk.mp4"; ClipClose;
      ClipOpen "/app/data/downloads/talk.mp4"; ClipSubclip 120 300;
      ClipWriteVideofile "/app/data/trimmed_videos/trimmed_talk.mp4";
      ClipClose; ClipClose;
      StSuccess "Video trimmed successfully!";
      FileRead "/app/data/trimmed_videos/trimmed_talk.mp4";
      StDownloadButton "Download Trimmed Video" "trimmed_talk.mp4" "video/mp4"]).
Proof. vm_compute. reflexivity. Qed.

(** A press of "Download Video" while yt-dlp cannot reach the network:
    the error is shown and the page goes on to the trimming part. *)
Example main_download_offline :
  trace (main (E := offline)
           {| in_video_url := "https://youtu.be/talk";
              in_download_quality := Some 1%nat;
              in_download_clicked := true;
              in_selected_video := Some 1%nat;
              in_start_time := None;
              in_end_time := None;
              in_trim_clicked := false |}
           sample_disk)
  = [YdlExtractInfo "https://youtu.be/talk"
       "bestvideo[ext=mp4]+bestaudio[ext=m4a]/best[ext=mp4]"
       "/app/data/downloads/%(title)s.%(ext)s";
     StError "Unexpected error downloading video: network unreachable";
     ClipOpen "/app/data/downloads/intro.mp4"; ClipClose].
Proof. vm_compute. reflexivity. Qed.

(** A progress dictionary without any total, and one that is not of a
    running download. *)
Example download_progress_no_total :
  download_progress (E := offline)
    {[ "status" := PStr "downloading"; "downloaded_bytes" := PInt 10 ]}
    sample_disk
  = (Ok tt, sample_disk, []).
Proof. vm_compute. reflexivity. Qed.

Example download_progress_finished :
  download_progress (E := offline)
    {[ "status" := PStr "finished"; "total_bytes" := PInt 10 ]} sample_disk
  = (Ok tt, sample_disk, []).
Proof. vm_compute. reflexivity. Qed.

(** [total_bytes] absent and the estimate [None]: line 70 raises. *)
Example download_progress_none_estimate :
  download_progress (E := offline)
    {[ "status" := PStr "downloading"; "total_bytes_estimate" := PNone ]}
    sample_disk
  = (Raise (TypeError
              "'>' not supported between instances of 'NoneType' and 'int'"),
     sample_disk, []).
Proof. vm_compute. reflexivity. Qed.

(** yt-dlp returns no metadata, or an empty dictionary. *)
Example download_without_metadata :
  download_youtube_video (E := disk_externals (ydl_returning None))
    "https://youtu.be/talk" downloads_dir "Lowest Resolution" sample_disk
  = (Ok None, sample_disk,
     [YdlExtractInfo "https://youtu.be/talk"
        "worstvideo[ext=mp4]+worstaudio[ext=m4a]/worst[ext=mp4]"
        "/app/data/downloads/%(title)s.%(ext)s";
      StError "Could not extract video information."])
  /\ outcome (download_youtube_video
                (E := disk_externals (ydl_returning (Some ∅)))
                "https://youtu.be/talk" downloads_dir "Best Available"
                sample_disk)
     = Ok None.
Proof. split; vm_compute; reflexivity. Qed.

(** Nothing downloaded yet. *)
Example trimming_section_empty :
  trimming_section (E := offline) (press_trim None None None) []
  = (Ok tt, [],
     [StWarning "No videos downloaded yet. Please download a video first."]).
Proof. vm_compute. reflexivity. Qed.

(** More bytes than the estimate: Streamlit turns the value 1.5 down
    and the hook raises. *)
Example download_progress_overshoot :
  for_each (download_progress (E := offline)) overshoot sample_disk
  = (Raise (LibraryError "Progress Value has invalid value [0.0, 1.0]"),
     sample_disk, []).
Proof. vm_compute. reflexivity. Qed.

Example path_join_examples :
  path_join "/app/data/downloads" "talk.mp4" = "/app/data/downloads/talk.mp4"
  /\ path_join "/app/data/downloads/" "talk.mp4" = "/app/data/downloads/talk.mp4"
  /\ path_join "/app/data/downloads" "/tmp/x.mp4" = "/tmp/x.mp4"
  /\ basename "/app/data/trimmed_videos/trimmed_talk.mp4" = "trimmed_talk.mp4".
Proof. repeat split. Qed.

Lemma disk_subclip_contract
    (ydl : disk -> ydl_opts -> string -> ydl_run disk) :
  subclip_contract (disk_externals ydl).
Proof.
  intros c c' s e _ _ _ Hcut.
  change (Ok (e - s)%Q = Ok c') in Hcut. injection Hcut as <-.
  change (e - s == e - s)%Q. reflexivity.
Qed.

Lemma disk_write_contract
    (ydl : disk -> ydl_opts -> string -> ydl_run disk) :
  write_contract (disk_externals ydl) 0.
Proof.
  intros w w' c path Hwrite.
  change (disk_write w c path = (Ok tt, w')) in Hwrite.
  unfold disk_write in Hwrite. injection Hwrite as <-. exists c. split.
  - change (disk_open ((path, c) :: filter (fun entry => fst entry <> path) w)
                      path = Ok c).
    unfold disk_open. cbn [disk_lookup]. rewrite String.eqb_refl. reflexivity.
  - change (Qabs (c - c) <= 0)%Q.
    assert (Hzero : (c - c == 0)%Q) by ring.
    rewrite Hzero. apply Qle_refl.
Qed.

(** Scenario 3 of the spec: start at minute 5, end at minute 2. *)
Lemma trim_invalid_range_no_file_witness :
  let r := trim_video (E := offline) "/app/data/downloads/talk.mp4" 300 120
                      "/app/data/trimmed_videos/trimmed_talk.mp4" sample_disk in
  outcome r = Ok None
  /\ final_fs r = sample_disk
  /\ filter (fun ev => is_cut_or_write ev = true) (trace r) = []
  /\ (exists msg, StError msg ∈ trace r).
Proof.
  apply (trim_invalid_range_no_file (E := offline)).
  right; left. unfold Qle; simpl; lia.
Defined.

(** The source is opened before the range is judged. *)
Lemma bad_range_opens_source_first : ~ rejects_before_any_call offline.
Proof.
  intros H.
  specialize (H "/app/data/downloads/talk.mp4"
                "/app/data/trimmed_videos/trimmed_talk.mp4"
                300%Q 120%Q sample_disk 600%Q eq_refl eq_refl).
  vm_compute in H. discriminate H.
Qed.

Lemma trim_bad_range_only_opens_source_witness :
  let r := trim_video (E := offline) "/app/data/downloads/talk.mp4" 300 120
                      "/app/data/trimmed_videos/trimmed_talk.mp4" sample_disk in
  trace r = [ClipOpen "/app/data/downloads/talk.mp4";
             StError "Invalid trim times. Please check and retry.";
             ClipClose]
  /\ before_error (trace r) = [ClipOpen "/app/data/downloads/talk.mp4"]
  /\ filter (fun ev => is_cut_or_write ev = true) (trace r) = []
  /\ final_fs r = sample_disk
  /\ outcome r = Ok None.
Proof.
  apply (trim_bad_range_only_opens_source (E := offline) _ _ _ _ _ 600%Q).
  - reflexivity.
  - right; right. unfold Qle; simpl; lia.
Defined.

(** The ten-minute talk with both fields left alone. *)
Lemma default_end_time_is_rejected_witness :
  trimming_section (E := offline) (press_trim None None None) sample_disk
  = (Ok tt, sample_disk,
     [ClipOpen "/app/data/downloads/talk.mp4"; ClipClose;
      ClipOpen "/app/data/downloads/talk.mp4";
      StError "Invalid trim times. Please check and retry.";
      ClipClose]).
Proof.
  refine (proj2 (proj2 (proj2
    (default_end_time_is_rejected (E := offline) (press_trim None None None)
       sample_disk "talk.mp4" 600%Q _ _ _ _ _ _)))).
  - reflexivity.
  - discriminate.
  - reflexivity.
  - unfold Qlt; simpl; lia.
  - reflexivity.
  - reflexivity.
Defined.

(** The talk, from minute 2 to minute 5. *)
Lemma page_start_time_not_negative_witness :
  let req := trim_request_of "talk.mp4" 2 5 in
  (0 <= req_start_time req)%Q
  /\ Qlt_bool (req_start_time req) 0 = false.
Proof.
  destruct (page_start_time_not_negative (E := offline)
              (press_trim None (Some 2%Q) (Some 5%Q)) sample_disk
              "talk.mp4" 600%Q) as (_ & Hge & Hb & _).
  - split; [unfold Qle; simpl; lia|exact I].
  - reflexivity.
  - discriminate.
  - reflexivity.
  - reflexivity.
  - exact (conj Hge Hb).
Defined.

(** Scenario 2 of the spec: minute 2 to minute 5 of the talk. *)
Lemma trim_valid_range_output_witness :
  let req := trim_request_of "talk.mp4" 2 5 in
  outcome (run_trim (E := offline) req sample_disk)
  = Ok (Some "/app/data/trimmed_videos/trimmed_talk.mp4")
  /\ exists produced,
       disk_open (final_fs (run_trim (E := offline) req sample_disk))
                 "/app/data/trimmed_videos/trimmed_talk.mp4" = Ok produced
       /\ (Qabs (produced - (300 - 120)) <= 0)%Q.
Proof.
  destruct (trim_valid_range_output (E := offline) 0 "talk.mp4" 2 5
              sample_disk
              (snd (disk_write sample_disk (5 * 60 - 2 * 60)%Q
                      "/app/data/trimmed_videos/trimmed_talk.mp4"))
              600%Q (5 * 60 - 2 * 60)%Q
              (disk_subclip_contract ydl_offline)
              (disk_write_contract ydl_offline))
    as (Hout & Hfs & _ & produced & Hopen & Hlen).
  - reflexivity.
  - unfold Qle; simpl; lia.
  - unfold Qlt; simpl; lia.
  - unfold Qle; simpl; lia.
  - reflexivity.
  - reflexivity.
  - split; [exact Hout|]. exists produced. rewrite Hfs.
    split; [exact Hopen|].
    change (Qabs ((produced : Q) - (5 * 60 - 2 * 60)) <= 0)%Q in Hlen.
    eapply Qle_trans; [|exact Hlen].
    apply Qle_lteq; right. apply Qabs_wd. ring.
Defined.

Lemma quality_mapping_total_witness :
  format_selector_of "Ultra 8K" = "best[ext=mp4]".
Proof.
  apply (proj1 (proj2 (proj2 (proj2 quality_mapping_total)))); discriminate.
Defined.

(** The arithmetic of the small world is exact: it keeps the laws. *)
Lemma disk_float_laws (ydl : disk -> ydl_opts -> string -> ydl_run disk) :
  float_laws (disk_externals ydl).
Proof.
  repeat split; try reflexivity.
  intros x y Hxy. exact Hxy.
Qed.




(** "My Cats.mp4" is listed before the new "Cats.mp4" and contains
    the title after "My ". *)
Lemma fetch_returns_first_title_match_witness :
  outcome (download_youtube_video
             (E := disk_externals (ydl_saving "Cats.mp4" "Cats" 120))
             "https://youtu.be/cats" downloads_dir "Best Available" cats_disk)
  = Ok (Some (path_join downloads_dir "My Cats.mp4")).
Proof.
  apply (proj1 (proj1 fetch_returns_first_title_match
                  (disk_externals (ydl_saving "Cats.mp4" "Cats" 120))
                  "https://youtu.be/cats" downloads_dir "Best Available"
                  cats_disk {[ "title" := PStr "Cats" ]} "Cats"
                  eq_refl eq_refl eq_refl)
           (path_join downloads_dir "My Cats.mp4")).
  exists [], "My Cats.mp4", ["Cats.mp4"].
  split; [vm_compute; reflexivity|]. split.
  - exists "My ", ".mp4". reflexivity.
  - split; [constructor|reflexivity].
Defined.

(** yt-dlp cannot reach the network. *)
Lemma fetch_failure_reported_witness :
  let r := download_youtube_video (E := offline) "https://youtu.be/talk"
             downloads_dir "Best Available" sample_disk in
  outcome r = Ok None
  /\ last (trace r)
     = Some (StError "Unexpected error downloading video: network unreachable")
  /\ extract_calls (trace r) = 1%nat.
Proof.
  apply (fetch_failure_reported offline "https://youtu.be/talk" downloads_dir
           "Best Available" sample_disk).
  exact (LibraryRaised _ (LibraryError "network unreachable")).
Defined.

(** ** More on trim_video *)

Section TrimmerBehaviour.
Context {E : Externals}.

(** The four ways through [trim_video]. *)
Lemma trim_video_cases (input_path output_path : string)
    (start_time end_time : Q) (w : fs) :
  let r := trim_video input_path start_time end_time output_path w in
  (exists e,
      video_file_clip w input_path = Raise e
      /\ r = (Ok None, w,
              [ClipOpen input_path;
               StError ("Error trimming video: " +:+ exn_str e)]))
  \/ (exists c,
         video_file_clip w input_path = Ok c
         /\ invalid_trim_times start_time end_time (duration c) = true
         /\ r = (Ok None, w,
                 [ClipOpen input_path;
                  StError "Invalid trim times. Please check and retry.";
                  ClipClose]))
  \/ (exists c e,
         video_file_clip w input_path = Ok c
         /\ invalid_trim_times start_time end_time (duration c) = false
         /\ subclip c start_time end_time = Raise e
         /\ r = (Ok None, w,
                 [ClipOpen input_path; ClipSubclip start_time end_time;
                  StError ("Error trimming video: " +:+ exn_str e)]))
  \/ (exists c c' e w',
         video_file_clip w input_path = Ok c
         /\ invalid_trim_times start_time end_time (duration c) = false
         /\ subclip c start_time end_time = Ok c'
         /\ write_videofile w c' output_path = (Raise e, w')
         /\ r = (Ok None, w',
                 [ClipOpen input_path; ClipSubclip start_time end_time;
                  ClipWriteVideofile output_path;
                  StError ("Error trimming video: " +:+ exn_str e)]))
  \/ (exists c c' w',
         video_file_clip w input_path = Ok c
         /\ invalid_trim_times start_time end_time (duration c) = false
         /\ subclip c start_time end_time = Ok c'
         /\ write_videofile w c' output_path = (Ok tt, w')
         /\ r = (Ok (Some output_path), w',
                 [ClipOpen input_path; ClipSubclip start_time end_time;
                  ClipWriteVideofile output_path; ClipClose; ClipClose])).
Proof.
  cbv zeta.
  unfold trim_video, try_except, bind, clip_open, clip_subclip,
    clip_write_videofile, emit, ret.
  destruct (video_file_clip w input_path) as [c|e] eqn:Hopen.
  2:{ left. exists e. split; auto. }
  destruct (invalid_trim_times start_time end_time (duration c)) eqn:Hinv.
  { right; left. exists c. repeat split; auto. }
  destruct (subclip c start_time end_time) as [c'|e] eqn:Hcut.
  2:{ right; right; left. exists c, e. repeat split; auto. }
  destruct (write_videofile w c' output_path) as [[[]|e] w'] eqn:Hwrite.
  - right; right; right; right. exists c, c', w'. repeat split; auto.
  - right; right; right; left. exists c, c', e, w'. repeat split; auto.
Qed.

(** X1. [trim_video] catches every exception: whatever the source, the
    range and the library do, it returns and does not raise. *)
Theorem trim_video_never_raises (input_path output_path : string)
    (start_time end_time : Q) (w : fs) :
  exists path : option string,
    outcome (trim_video input_path start_time end_time output_path w) = Ok path.
Proof.
  destruct (trim_video_cases input_path output_path start_time end_time w)
    as [(e & _ & ->)|[(c & _ & _ & ->)|[(c & e & _ & _ & _ & ->)
       |[(c & c' & e & w' & _ & _ & _ & _ & ->)
        |(c & c' & w' & _ & _ & _ & _ & ->)]]]]; eexists; reflexivity.
Qed.

(** X2. A path comes back only from a completed cut: the path is the
    requested output path, the source opened, the range satisfies
    [0 <= start < end <= duration], both library calls succeeded, and
    the file system is the one [write_videofile] left. *)
Theorem trim_video_path_only_after_write (input_path output_path path : string)
    (start_time end_time : Q) (w : fs) :
  let r := trim_video input_path start_time end_time output_path w in
  outcome r = Ok (Some path) ->
  path = output_path
  /\ exists c c',
       video_file_clip w input_path = Ok c
       /\ (0 <= start_time /\ start_time < end_time
           /\ end_time <= duration c)%Q
       /\ subclip c start_time end_time = Ok c'
       /\ write_videofile w c' output_path = (Ok tt, final_fs r).
Proof.
  cbv zeta. intros Hpath.
  destruct (trim_video_cases input_path output_path start_time end_time w)
    as [(e & _ & Hr)|[(c & _ & _ & Hr)|[(c & e & _ & _ & _ & Hr)
       |[(c & c' & e & w' & _ & _ & _ & _ & Hr)
        |(c & c' & w' & Hopen & Hgood & Hcut & Hwrite & Hr)]]]];
    rewrite Hr in Hpath |- *; unfold outcome in Hpath; cbn [fst] in Hpath;
    try discriminate.
  injection Hpath as <-. split; [reflexivity|].
  exists c, c'. apply invalid_trim_times_false in Hgood.
  unfold final_fs; cbn [fst snd]. auto.
Qed.

(** X3. When moviepy raises while cutting or writing, [trim_video] returns
    [None], its last output is "Error trimming video: <exception>",
    and it never closes the source it opened: lines 89-90 are
    skipped. *)
Theorem trim_video_failure_leaves_clip_open (input_path output_path : string)
    (start_time end_time : Q) (w : fs) (c : clip) (e : exn) :
  video_file_clip w input_path = Ok c ->
  invalid_trim_times start_time end_time (duration c) = false ->
  subclip c start_time end_time = Raise e
  \/ (exists c', subclip c start_time end_time = Ok c'
                 /\ fst (write_videofile w c' output_path) = Raise e) ->
  let r := trim_video input_path start_time end_time output_path w in
  outcome r = Ok None
  /\ last (trace r) = Some (StError ("Error trimming video: " +:+ exn_str e))
  /\ List.filter is_close (trace r) = [].
Proof.
  intros Hopen Hgood Hfail. cbv zeta.
  destruct (trim_video_cases input_path output_path start_time end_time w)
    as [(e0 & H1 & Hr)|[(c0 & H1 & H2 & Hr)|[(c0 & e0 & H1 & H2 & H3 & Hr)
       |[(c0 & c' & e0 & w' & H1 & H2 & H3 & H4 & Hr)
        |(c0 & c' & w' & H1 & H2 & H3 & H4 & Hr)]]]];
    rewrite Hopen in H1; try discriminate; injection H1 as <-;
    try (rewrite Hgood in H2; discriminate); rewrite Hr.
  - destruct Hfail as [Hf|(c' & Hf & _)]; rewrite Hf in H3;
      [injection H3 as <-|discriminate]. repeat split.
  - destruct Hfail as [Hf|(c1 & Hf & Hw)]; rewrite Hf in H3;
      [discriminate|injection H3 as <-].
    rewrite H4 in Hw. cbn [fst] in Hw. injection Hw as <-. repeat split.
  - destruct Hfail as [Hf|(c1 & Hf & Hw)]; rewrite Hf in H3;
      [discriminate|injection H3 as <-].
    rewrite H4 in Hw. discriminate.
Qed.

(** X4. [trim_video] changes the file system through [write_videofile]
    alone: either nothing was written and the file system is as it
    was, or it is what one call of [write_videofile] on the requested
    output path left; no write call in its trace names another
    path. *)
Theorem trim_video_writes_only_output (input_path output_path : string)
    (start_time end_time : Q) (w : fs) :
  let r := trim_video input_path start_time end_time output_path w in
  ((final_fs r = w /\ List.filter is_write (trace r) = []
    /\ outcome r = Ok None)
   \/ exists c', final_fs r = snd (write_videofile w c' output_path))
  /\ forallb (is_write_to output_path) (trace r) = true.
Proof.
  cbv zeta.
  destruct (trim_video_cases input_path output_path start_time end_time w)
    as [(e0 & H1 & Hr)|[(c0 & H1 & H2 & Hr)|[(c0 & e0 & H1 & H2 & H3 & Hr)
       |[(c0 & c' & e0 & w' & H1 & H2 & H3 & H4 & Hr)
        |(c0 & c' & w' & H1 & H2 & H3 & H4 & Hr)]]]];
    rewrite Hr; unfold final_fs, trace, outcome; cbn [fst snd].
  - split; [left; repeat split|reflexivity].
  - split; [left; repeat split|reflexivity].
  - split; [left; repeat split|reflexivity].
  - split; [right; exists c'; rewrite H4; reflexivity|].
    cbn. rewrite String.eqb_refl. reflexivity.
  - split; [right; exists c'; rewrite H4; reflexivity|].
    cbn. rewrite String.eqb_refl. reflexivity.
Qed.

End TrimmerBehaviour.

(** ** More on download_progress *)

Section HookBehaviour.
Context {E : Externals}.

(** Behind the guard of line 70 the division of line 71 can fail only
    on the types of its operands or on an integer too large for a
    float. *)
Lemma py_truediv_behind_guard (a b : pyval) (t : Q) (e : exn) :
  float_laws E ->
  py_num b = Some t -> (0 < t)%Q ->
  py_truediv a b = Raise e ->
  (exists msg, e = TypeError msg) \/ (exists msg, e = OverflowError msg).
Proof.
  intros (Hmono & _ & H1 & _) Hnum Ht.
  assert (Hint : forall y : Z, (0 < inject_Z y)%Q ->
            Z.eqb y 0 = false /\ Qeq_bool (float_round (inject_Z y)) 0 = false).
  { intros y Hy.
    assert (Hy1 : (1 <= y)%Z).
    { change 0%Q with (inject_Z 0) in Hy. rewrite <- Zlt_Qlt in Hy. lia. }
    split; [apply Z.eqb_neq; lia|].
    destruct (Qeq_bool _ 0) eqn:Heq; [|reflexivity].
    apply Qeq_bool_iff in Heq.
    assert (H : (float_round 1 <= float_round (inject_Z y))%Q).
    { apply Hmono. change 1%Q with (inject_Z 1). rewrite <- Zle_Qle. exact Hy1. }
    rewrite H1, Heq in H. exfalso. revert H. apply Qlt_not_le. reflexivity. }
  assert (Hflt : forall y : Q, (0 < y)%Q -> Qeq_bool y 0 = false).
  { intros y Hy. destruct (Qeq_bool y 0) eqn:Heq; [|reflexivity].
    apply Qeq_bool_iff in Heq. rewrite Heq in Hy.
    exfalso. exact (Qlt_irrefl 0 Hy). }
  destruct b as [| y | y |]; try discriminate Hnum; injection Hnum as <-.
  - destruct (Hint y Ht) as [Hy0 Hry].
    destruct a as [| x | x |];
      unfold py_truediv, int_as_float, float_truediv.
    + intros [= <-]. left. eauto.
    + rewrite Hy0. destruct (float_overflows (inject_Z x / inject_Z y));
        [intros [= <-]; right; eauto|discriminate].
    + destruct (float_overflows (inject_Z y));
        [intros [= <-]; right; eauto|]. rewrite Hry. discriminate.
    + intros [= <-]. left. eauto.
  - pose proof (Hflt y Ht) as Hy0.
    destruct a as [| x | x |];
      unfold py_truediv, int_as_float, float_truediv.
    + intros [= <-]. left. eauto.
    + destruct (float_overflows (inject_Z x));
        [intros [= <-]; right; eauto|]. rewrite Hy0. discriminate.
    + rewrite Hy0. discriminate.
    + intros [= <-]. left. eauto.
Qed.

(** X5. One call of the hook leaves the file system alone and shows at
    most one progress fraction and nothing else.  It can fail only
    with [KeyError('status')], with a [TypeError], with the
    [OverflowError] of an integer too large for a float, or with
    Streamlit's exception for a value it does not take; the test
    [total > 0] of line 70 keeps the division of line 71 from a
    division by zero. *)
Theorem download_progress_outcomes (d : gmap string pyval) (w : fs) :
  float_laws E ->
  let r := download_progress d w in
  final_fs r = w
  /\ (trace r = []
      \/ exists v, r = (Ok tt, w, [StProgress v])
                   /\ progress_accepts v = true)
  /\ (forall e, outcome r = Raise e ->
        (e = KeyError "status" /\ d !! "status" = None)
        \/ (exists msg, e = TypeError msg)
        \/ (exists msg, e = OverflowError msg)
        \/ (exists v, e = progress_rejected v /\ progress_accepts v = false))
  /\ (py_gt (hook_total d) (PInt 0) = Ok true ->
      forall msg,
        py_truediv (hook_downloaded d) (hook_total d)
        <> Raise (ZeroDivisionError msg)).
Proof.
  intros Hlaws. cbv zeta.
  assert (Hguarded : py_gt (hook_total d) (PInt 0) = Ok true ->
            exists t, py_num (hook_total d) = Some t /\ (0 < t)%Q).
  { unfold py_gt. destruct (py_num (hook_total d)) as [t|]; [|discriminate].
    cbn [py_num]. intros [= Hgt]. exists t. split; [reflexivity|].
    apply Qlt_bool_true in Hgt. exact Hgt. }
  assert (Hzero : py_gt (hook_total d) (PInt 0) = Ok true ->
            forall msg,
              py_truediv (hook_downloaded d) (hook_total d)
              <> Raise (ZeroDivisionError msg)).
  { intros Hgt msg Hdiv. destruct (Hguarded Hgt) as (t & Ht & Hpos).
    destruct (py_truediv_behind_guard _ _ _ _ Hlaws Ht Hpos Hdiv)
      as [[m Hm]|[m Hm]]; discriminate Hm. }
  split; [apply download_progress_no_extract|].
  split; [|split; [|exact Hzero]].
  - unfold download_progress, st_progress, bind, lift, emit, raise, ret.
    destruct (dict_getitem d "status") as [status|e]; [|left; reflexivity].
    destruct (py_eq_str status "downloading"); [|left; reflexivity].
    destruct (py_gt (hook_total d) (PInt 0)) as [[|]|e];
      try (left; reflexivity).
    destruct (py_truediv (hook_downloaded d) (hook_total d)) as [ratio|e];
      [|left; reflexivity].
    destruct (progress_accepts _) eqn:Hguard; [|left; reflexivity].
    right. eexists. split; [reflexivity|exact Hguard].
  - unfold download_progress, st_progress, bind, lift, emit, raise, ret,
      dict_getitem.
    destruct (d !! "status") as [status|] eqn:Hstatus.
    2:{ intros e [= <-]. left. split; reflexivity. }
    destruct (py_eq_str status "downloading"); [|discriminate].
    destruct (py_gt (hook_total d) (PInt 0)) as [[|]|e0] eqn:Hgt;
      [|discriminate|].
    2:{ intros e [= <-]. right; left. unfold py_gt in Hgt.
        destruct (py_num (hook_total d)); [discriminate Hgt|].
        injection Hgt as <-. eauto. }
    destruct (Hguarded eq_refl) as (t & Ht & Hpos).
    destruct (py_truediv (hook_downloaded d) (hook_total d)) as [ratio|e0]
      eqn:Hdiv.
    + destruct (progress_accepts _) eqn:Hguard; [discriminate|].
      intros e [= <-]. right; right; right. eexists.
      split; [reflexivity|exact Hguard].
    + intros e [= <-].
      destruct (py_truediv_behind_guard _ _ _ _ Hlaws Ht Hpos Hdiv)
        as [Hm|Hm]; [right; left|right; right; left]; exact Hm.
Qed.

(** X6. A truthy [total_bytes] wins over the estimate: whatever is stored
    under [total_bytes_estimate], the hook behaves the same. *)
Theorem total_bytes_overrides_estimate (d : gmap string pyval)
    (total estimate : pyval) (w : fs) :
  d !! "total_bytes" = Some total ->
  truthy total = true ->
  download_progress (<["total_bytes_estimate" := estimate]> d) w
  = download_progress d w.
Proof.
  intros Htotal Htruthy.
  assert (Hh : hook_total (<["total_bytes_estimate" := estimate]> d)
               = hook_total d).
  { unfold hook_total, py_or, dict_get.
    rewrite lookup_insert_ne by discriminate.
    rewrite Htotal. cbn [default from_option id]. rewrite Htruthy.
    reflexivity. }
  assert (Hd : hook_downloaded (<["total_bytes_estimate" := estimate]> d)
               = hook_downloaded d).
  { unfold hook_downloaded, dict_get_default.
    rewrite lookup_insert_ne by discriminate. reflexivity. }
  unfold download_progress, dict_getitem.
  rewrite Hh, Hd, lookup_insert_ne by discriminate. reflexivity.
Qed.

End HookBehaviour.

(** ** More on download_youtube_video *)

(** The loop of lines 52-54 never gets past a title that is not a
    string. *)
Lemma find_file_found_string (v : pyval) (files : list string) (f : string) :
  find_file v files = Ok (Some f) -> exists t, v = PStr t.
Proof.
  destruct v as [| | |t]; [| | |eauto];
    destruct files; simpl; discriminate.
Qed.

(** X7. The loop of lines 52-54 returns a name exactly when that name is
    in the listing, contains the title, and no name listed before it
    does; it returns nothing exactly when no listed name contains the
    title. *)
Theorem find_file_first_containing (t : string) (files : list string) :
  (forall f,
      find_file (PStr t) files = Ok (Some f)
      <-> exists l1 l2,
            files = (l1 ++ f :: l2)%list
            /\ (exists pre post, f = pre +:+ t +:+ post)
            /\ Forall (fun g => forall pre post, g <> pre +:+ t +:+ post) l1)
  /\ (find_file (PStr t) files = Ok None
      <-> Forall (fun g => forall pre post, g <> pre +:+ t +:+ post) files).
Proof.
  assert (Hno : forall g, str_in t g = false
                          <-> forall pre post, g <> pre +:+ t +:+ post).
  { intros g. split.
    - intros Hf pre post ->.
      assert (str_in t (pre +:+ t +:+ post) = true)
        by (apply str_in_split; eauto).
      congruence.
    - intros Hn. destruct (str_in t g) eqn:Hg; [|reflexivity].
      apply str_in_split in Hg as (pre & post & ->).
      exfalso. exact (Hn pre post eq_refl). }
  induction files as [|g rest [IHsome IHnone]].
  - split.
    + intros f. simpl. split; [discriminate|].
      intros (l1 & l2 & Hl & _). destruct l1; discriminate.
    + simpl. split; [constructor|reflexivity].
  - split.
    + intros f. simpl. destruct (str_in t g) eqn:Hg.
      * split.
        -- intros [= <-]. exists [], rest. split; [reflexivity|].
           split; [apply str_in_split; exact Hg|constructor].
        -- intros (l1 & l2 & Hl & Hin & Hbefore).
           destruct l1 as [|g' l1]; simpl in Hl.
           ++ congruence.
           ++ injection Hl as <- _. apply Forall_cons in Hbefore as [Hg' _].
              apply Hno in Hg'. congruence.
      * rewrite IHsome. split.
        -- intros (l1 & l2 & -> & Hin & Hbefore).
           exists (g :: l1), l2. split; [reflexivity|]. split; [exact Hin|].
           constructor; [apply Hno; exact Hg|exact Hbefore].
        -- intros (l1 & l2 & Hl & Hin & Hbefore).
           destruct l1 as [|g' l1]; simpl in Hl.
           ++ injection Hl as <- _. apply str_in_split in Hin. congruence.
           ++ injection Hl as <- ->. apply Forall_cons in Hbefore as [_ Hb].
              exists l1, l2. auto.
    + simpl. destruct (str_in t g) eqn:Hg.
      * split; [discriminate|].
        intros Hall. apply Forall_cons in Hall as [Hg' _].
        apply Hno in Hg'. congruence.
      * rewrite IHnone. split.
        -- intros Hall. constructor; [apply Hno; exact Hg|exact Hall].
        -- intros Hall. apply Forall_cons in Hall as [_ Hall]. exact Hall.
Qed.

Section FetcherBehaviour.
Context {E : Externals}.

Lemma callbacks_keep_fs (cs : list callback) (w : fs) :
  final_fs (for_each run_callback cs w) = w.
Proof.
  induction cs as [|c cs IH]; [reflexivity|].
  simpl. unfold bind.
  assert (Hc : final_fs (run_callback c w) = w).
  { destruct c; simpl; try reflexivity.
    apply download_progress_no_extract. }
  destruct (run_callback c w) as [[[u|e] w1] t1]; unfold final_fs in Hc;
    cbn [fst snd] in Hc; subst w1; [|reflexivity].
  destruct (for_each run_callback cs w) as [[r w2] t2].
  exact IH.
Qed.

Lemma ydl_extract_info_fs (opts : ydl_opts) (url : string) (w : fs) :
  final_fs (ydl_extract_info opts url w) = run_fs (extract_info w opts url).
Proof.
  unfold ydl_extract_info.
  pose proof (callbacks_keep_fs (run_callbacks (extract_info w opts url))
                (run_fs (extract_info w opts url))) as H.
  destruct (for_each run_callback _ _) as [[[u|e] w1] t]; exact H.
Qed.

(** X8. [download_youtube_video] catches every exception, and writes
    nothing itself: the file system after it is the one yt-dlp left. *)
Theorem download_youtube_video_never_raises
    (url output_path quality_option : string) (w : fs) :
  let r := download_youtube_video url output_path quality_option w in
  (exists path : option string, outcome r = Ok path)
  /\ final_fs r
     = run_fs (extract_info w (make_ydl_opts output_path quality_option) url).
Proof.
  cbv zeta. rewrite <- ydl_extract_info_fs, download_youtube_video_run.
  destruct (ydl_extract_info _ url w) as [[[info|e] w1] t];
    [|split; [eexists|]; reflexivity].
  destruct (falsy_dict info); [split; [eexists|]; reflexivity|].
  destruct (find_file _ _) as [[file|]|e]; split; try eexists; reflexivity.
Qed.

(** X9. A path comes back only when yt-dlp returned metadata whose title is
    a string and the output directory, as yt-dlp left it, lists a name
    that contains this title; the path is that name joined to the
    output directory. *)
Theorem download_path_only_for_listed_match
    (url output_path quality_option path : string) (w : fs) :
  let r := download_youtube_video url output_path quality_option w in
  outcome r = Ok (Some path) ->
  exists info t file,
    outcome (ydl_extract_info (make_ydl_opts output_path quality_option) url w)
    = Ok (Some info)
    /\ title_of info = PStr t
    /\ In file (listdir (final_fs r) output_path)
    /\ (exists pre post, file = pre +:+ t +:+ post)
    /\ path = path_join output_path file.
Proof.
  cbv zeta. rewrite download_youtube_video_run.
  destruct (ydl_extract_info _ url w) as [[[info|e] w1] tr];
    [|discriminate].
  destruct (falsy_dict info) eqn:Hfalsy; [discriminate|].
  destruct info as [info|]; [|discriminate].
  change (title_of (default ∅ (Some info))) with (title_of info).
  destruct (find_file (title_of info) (listdir w1 output_path))
    as [[file|]|e] eqn:Hfind; try discriminate.
  unfold outcome, final_fs; cbn [fst snd]. intros [= <-].
  destruct (find_file_found_string _ _ _ Hfind) as [t Ht].
  rewrite Ht, find_file_first_match in Hfind. injection Hfind as Hfind.
  apply List.find_some in Hfind as [Hin Hsub].
  exists info, t, file. repeat split; auto.
  apply str_in_split. exact Hsub.
Qed.

(** X10. An empty title is contained in every name: the first name the
    output directory lists is returned, whatever it is. *)
Theorem empty_title_returns_first_listed
    (url output_path quality_option : string) (w : fs)
    (info : gmap string pyval) (first : string) (rest : list string) :
  let run := ydl_extract_info (make_ydl_opts output_path quality_option) url w in
  outcome run = Ok (Some info) ->
  title_of info = PStr "" ->
  listdir (final_fs run) output_path = first :: rest ->
  outcome (download_youtube_video url output_path quality_option w)
  = Ok (Some (path_join output_path first)).
Proof.
  intros run Hrun Htitle Hls.
  assert (Hfalsy : falsy_dict (Some info) = false).
  { unfold falsy_dict. apply bool_decide_eq_false. intros ->.
    unfold title_of, dict_get_default in Htitle.
    rewrite lookup_empty in Htitle. discriminate. }
  rewrite download_youtube_video_run. fold run.
  destruct run as [[o w1] tr]. unfold outcome, final_fs in *.
  cbn [fst snd] in *. subst o. rewrite Hfalsy.
  change (title_of (default ∅ (Some info))) with (title_of info).
  rewrite Htitle, Hls. cbn [find_file py_in_str].
  assert (Hin : str_in "" first = true)
    by (apply str_in_split; exists "", first; reflexivity).
  rewrite Hin. reflexivity.
Qed.

(** X11. A title that is not a string (a [None], say) makes the test of line 53 raise on the first listed name: the
    fetch returns [None] with "Unexpected error downloading video:
    ..."; on an empty directory the loop does not run and the message
    is "Video download failed." *)
Theorem non_string_title_fails
    (url output_path quality_option : string) (w : fs)
    (info : gmap string pyval) (v : pyval) :
  let run := ydl_extract_info (make_ydl_opts output_path quality_option) url w in
  outcome run = Ok (Some info) ->
  title_of info = v ->
  (forall t, v <> PStr t) ->
  let r := download_youtube_video url output_path quality_option w in
  outcome r = Ok None
  /\ last (trace r)
     = Some (StError
               (match listdir (final_fs run) output_path with
                | [] => "Video download failed."
                | _ :: _ =>
                    "Unexpected error downloading video: "
                    +:+ "'in <string>' requires string as left operand, not "
                    +:+ type_name v
                end)).
Proof.
  intros run Hrun Htitle Hv r. subst r.
  assert (Hfalsy : falsy_dict (Some info) = false).
  { unfold falsy_dict. apply bool_decide_eq_false. intros ->.
    unfold title_of, dict_get_default in Htitle.
    rewrite lookup_empty in Htitle. cbn in Htitle. subst v.
    exact (Hv _ eq_refl). }
  rewrite download_youtube_video_run. fold run.
  destruct run as [[o w1] tr]. unfold outcome, final_fs, trace in *.
  cbn [fst snd] in *. subst o. rewrite Hfalsy.
  change (title_of (default ∅ (Some info))) with (title_of info).
  rewrite Htitle.
  destruct (listdir w1 output_path) as [|file files].
  - cbn [find_file fst snd]. rewrite last_snoc. split; reflexivity.
  - destruct v as [| | |t]; try (exfalso; exact (Hv t eq_refl));
      cbn [find_file py_in_str fst snd exn_str];
      rewrite last_snoc; split; reflexivity.
Qed.

(** X12. With no progress report among the callbacks, the page shows, after
    the call, exactly the messages yt-dlp logged as errors, each
    behind "Download error: ", in order; debug and warning lines never
    reach the page. *)
Theorem logger_shows_errors_only (opts : ydl_opts) (url : string) (w : fs) :
  let run := extract_info w opts url in
  forallb (fun c => negb (is_hook_call c)) (run_callbacks run) = true ->
  ydl_extract_info opts url w
  = (run_outcome run, run_fs run,
     YdlExtractInfo url (opt_format opts) (opt_outtmpl opts)
     :: logger_output (run_callbacks run)).
Proof.
  intros run Hno. unfold ydl_extract_info. fold run.
  assert (H : forall cs w0,
             forallb (fun c => negb (is_hook_call c)) cs = true ->
             for_each run_callback cs w0 = (Ok tt, w0, logger_output cs)).
  { clear. induction cs as [|c cs IH]; intros w0 Hcs; [reflexivity|].
    cbn [forallb] in Hcs. apply andb_true_iff in Hcs as [Hc Hcs].
    cbn [for_each]. unfold bind.
    destruct c; try discriminate Hc; cbn [run_callback ret emit];
      rewrite (IH w0 Hcs); reflexivity. }
  rewrite (H _ _ Hno). reflexivity.
Qed.

End FetcherBehaviour.

(** ** More on the page *)

Lemma append_assoc (a b c : string) : (a +:+ b) +:+ c = a +:+ (b +:+ c).
Proof.
  induction a as [|x a IH]; [reflexivity|].
  rewrite !append_cons, IH. reflexivity.
Qed.

Lemma append_length (a b : string) :
  String.length (a +:+ b) = (String.length a + String.length b)%nat.
Proof.
  induction a as [|x a IH]; [reflexivity|].
  rewrite append_cons. simpl. rewrite IH. reflexivity.
Qed.

Lemma str_in_slash_cons (c : ascii) (s : string) :
  str_in "/" (String c s) = false <-> c <> "/"%char /\ str_in "/" s = false.
Proof.
  change (str_in "/" (String c s))
    with ((if Ascii.ascii_dec "/" c then String.prefix "" s else false)
          || str_in "/" s).
  destruct (Ascii.ascii_dec "/" c) as [<-|Hne].
  - assert (Hp : String.prefix "" s = true) by (destruct s; reflexivity).
    rewrite Hp. cbn [orb]. split; [discriminate|].
    intros [H1 _]. exfalso. apply H1. reflexivity.
  - cbn [orb]. split.
    + intros H. split; [|exact H]. intros ->. apply Hne. reflexivity.
    + intros [_ H]. exact H.
Qed.

Lemma basename_from_no_slash (s acc : string) :
  str_in "/" s = false -> basename_from acc s = acc +:+ s.
Proof.
  revert acc. induction s as [|c s IH]; intros acc Hs.
  - simpl. clear. induction acc as [|x acc IH]; [reflexivity|].
    rewrite append_cons, <- IH. reflexivity.
  - apply str_in_slash_cons in Hs as [Hc Hs].
    simpl. apply Ascii.eqb_neq in Hc. rewrite Hc.
    rewrite (IH _ Hs), append_assoc. reflexivity.
Qed.

Lemma basename_from_after_slash (pre s acc : string) :
  basename_from acc (pre +:+ String "/" s) = basename_from "" s.
Proof.
  revert acc. induction pre as [|c pre IH]; intros acc; [reflexivity|].
  rewrite append_cons. simpl.
  destruct (Ascii.eqb c "/"); apply IH.
Qed.

(** The name under which a trimmed file is offered. *)
Lemma basename_of_trimmed (selected_video : string) (s e : Q) :
  str_in "/" selected_video = false ->
  basename (req_output_path (trim_request_of selected_video s e))
  = "trimmed_" +:+ selected_video.
Proof.
  intros Hsel.
  change (req_output_path (trim_request_of selected_video s e))
    with ("/app/data/trimmed_videos"
          +:+ String "/" ("trimmed_" +:+ selected_video)).
  unfold basename. rewrite basename_from_after_slash.
  rewrite basename_from_no_slash; [reflexivity|].
  change ("trimmed_" +:+ selected_video)
    with (String "t" (String "r" (String "i" (String "m" (String "m"
           (String "e" (String "d" (String "_" selected_video)))))))).
  repeat (apply str_in_slash_cons; split; [discriminate|]).
  exact Hsel.
Qed.

Lemma path_join_downloads (name : string) :
  String.prefix "/" name = false ->
  path_join downloads_dir name = "/app/data/downloads/" +:+ name.
Proof. intros H. unfold path_join. rewrite H. reflexivity. Qed.

Section PageBehaviour.
Context {E : Externals}.

(** X13. The page never writes a trimmed file over its own source: input and
    output path of the call it makes differ for every selected name. *)
Theorem page_output_differs_from_source (selected_video : string)
    (start_time end_time : Q) :
  let req := trim_request_of selected_video start_time end_time in
  req_input_path req <> req_output_path req.
Proof.
  cbv zeta.
  change (req_output_path (trim_request_of selected_video start_time end_time))
    with ("/app/data/trimmed_videos/trimmed_" +:+ selected_video).
  change (req_input_path (trim_request_of selected_video start_time end_time))
    with (path_join downloads_dir selected_video).
  destruct (String.prefix "/" selected_video) eqn:Hp.
  - unfold path_join. rewrite Hp. intros Heq.
    apply (f_equal String.length) in Heq.
    rewrite append_length in Heq. simpl in Heq. lia.
  - rewrite (path_join_downloads _ Hp). intros Heq.
    change ("/app/data/downloads/" +:+ selected_video)
      with ("/app/data/" +:+ String "d" ("ownloads/" +:+ selected_video)) in Heq.
    change ("/app/data/trimmed_videos/trimmed_" +:+ selected_video)
      with ("/app/data/"
            +:+ String "t" ("rimmed_videos/trimmed_" +:+ selected_video)) in Heq.
    apply (inj (String.append "/app/data/")) in Heq. discriminate Heq.
Qed.

(** X15. A run of the trimming part without a press of "Trim Video" cuts
    and writes nothing and leaves the file system as it was. *)
Theorem trimming_section_idle (ui : ui_input) (w : fs) :
  in_trim_clicked ui = false ->
  let r := trimming_section ui w in
  final_fs r = w /\ List.filter is_cut_or_write (trace r) = [].
Proof.
  intros Hidle. cbv zeta.
  unfold trimming_section, bind, os_listdir, clip_open, emit, ret.
  rewrite Hidle.
  destruct (listdir w downloads_dir) as [|name names]; [split; reflexivity|].
  destruct (selectbox (name :: names) (in_selected_video ui)) as [sel|];
    [|split; reflexivity].
  destruct (String.eqb sel ""); [split; reflexivity|].
  destruct (video_file_clip w (path_join downloads_dir sel));
    split; reflexivity.
Qed.

(** X16. A selected file moviepy cannot open stops the page: the exception
    of line 166 is not caught, whether or not "Trim Video" was
    pressed, and nothing is trimmed. *)
Theorem trimming_section_unreadable_selection (ui : ui_input) (w : fs)
    (selected_video : string) (e : exn) :
  selectbox (listdir w downloads_dir) (in_selected_video ui)
  = Some selected_video ->
  selected_video <> "" ->
  video_file_clip w (path_join downloads_dir selected_video) = Raise e ->
  trimming_section ui w
  = (Raise e, w, [ClipOpen (path_join downloads_dir selected_video)]).
Proof.
  intros Hsel Hne Hopen.
  unfold trimming_section, os_listdir. unfold bind at 1.
  destruct (listdir w downloads_dir) as [|name names] eqn:Hls.
  { unfold selectbox in Hsel. rewrite lookup_nil in Hsel. discriminate. }
  rewrite Hsel. apply String.eqb_neq in Hne. rewrite Hne.
  unfold bind at 1, clip_open. rewrite Hopen. reflexivity.
Qed.

(** X17. What a successful trim from the page shows, in order: the duration
    query, the cut, the write, the success message, the read of the
    new file, and a download button whose file name is
    [trimmed_<selected name>]. *)
Theorem trimming_section_success (ui : ui_input) (w w' : fs)
    (selected_video : string) (c c' : clip) (bytes : list Byte.byte) :
  selectbox (listdir w downloads_dir) (in_selected_video ui)
  = Some selected_video ->
  selected_video <> "" ->
  str_in "/" selected_video = false ->
  video_file_clip w (path_join downloads_dir selected_video) = Ok c ->
  in_trim_clicked ui = true ->
  let req :=
    trim_request_of selected_video
      (number_input start_time_widget (in_start_time ui))
      (number_input (end_time_widget (duration c)) (in_end_time ui)) in
  invalid_trim_times (req_start_time req) (req_end_time req) (duration c)
  = false ->
  subclip c (req_start_time req) (req_end_time req) = Ok c' ->
  write_videofile w c' (req_output_path req) = (Ok tt, w') ->
  read_bytes w' (req_output_path req) = Ok bytes ->
  trimming_section ui w
  = (Ok tt, w',
     [ClipOpen (req_input_path req); ClipClose;
      ClipOpen (req_input_path req);
      ClipSubclip (req_start_time req) (req_end_time req);
      ClipWriteVideofile (req_output_path req); ClipClose; ClipClose;
      StSuccess "Video trimmed successfully!";
      FileRead (req_output_path req);
      StDownloadButton "Download Trimmed Video"
                       ("trimmed_" +:+ selected_video) "video/mp4"]).
Proof.
  intros Hsel Hne Hslash Hopen Hclick req Hgood Hcut Hwrite Hread.
  rewrite (trimming_section_pressed ui w selected_video c Hsel Hne Hopen Hclick).
  cbv zeta. fold req. unfold bind at 1, run_trim.
  change (req_input_path req) with (path_join downloads_dir selected_video).
  rewrite (trim_video_written _ _ _ _ _ _ _ _ Hopen Hgood Hcut Hwrite).
  unfold offer_download, bind, emit, read_file_bytes.
  change (String.eqb (req_output_path req) "") with false. cbv beta iota.
  rewrite Hread.
  subst req. rewrite (basename_of_trimmed _ _ _ Hslash). reflexivity.
Qed.

(** X18. The read of line 193 is outside any [try]: when the trimmed file
    cannot be read back, the success message is already on the page
    and the exception leaves the script; no download button is
    shown. *)
Theorem trimming_section_read_failure (ui : ui_input) (w w' : fs)
    (selected_video : string) (c c' : clip) (e : exn) :
  selectbox (listdir w downloads_dir) (in_selected_video ui)
  = Some selected_video ->
  selected_video <> "" ->
  video_file_clip w (path_join downloads_dir selected_video) = Ok c ->
  in_trim_clicked ui = true ->
  let req :=
    trim_request_of selected_video
      (number_input start_time_widget (in_start_time ui))
      (number_input (end_time_widget (duration c)) (in_end_time ui)) in
  invalid_trim_times (req_start_time req) (req_end_time req) (duration c)
  = false ->
  subclip c (req_start_time req) (req_end_time req) = Ok c' ->
  write_videofile w c' (req_output_path req) = (Ok tt, w') ->
  read_bytes w' (req_output_path req) = Raise e ->
  trimming_section ui w
  = (Raise e, w',
     [ClipOpen (req_input_path req); ClipClose;
      ClipOpen (req_input_path req);
      ClipSubclip (req_start_time req) (req_end_time req);
      ClipWriteVideofile (req_output_path req); ClipClose; ClipClose;
      StSuccess "Video trimmed successfully!";
      FileRead (req_output_path req)]).
Proof.
  intros Hsel Hne Hopen Hclick req Hgood Hcut Hwrite Hread.
  rewrite (trimming_section_pressed ui w selected_video c Hsel Hne Hopen Hclick).
  cbv zeta. fold req. unfold bind at 1, run_trim.
  change (req_input_path req) with (path_join downloads_dir selected_video).
  rewrite (trim_video_written _ _ _ _ _ _ _ _ Hopen Hgood Hcut Hwrite).
  unfold offer_download, bind, emit, read_file_bytes.
  change (String.eqb (req_output_path req) "") with false. cbv beta iota.
  rewrite Hread. reflexivity.
Qed.

End PageBehaviour.

Lemma path_join_nonempty (a b : string) : a <> "" -> path_join a b <> "".
Proof.
  intros Ha. unfold path_join.
  destruct (String.prefix "/" b) eqn:Hb.
  - destruct b; [discriminate Hb|discriminate].
  - destruct a as [|x a]; [contradiction|].
    destruct (_ || _); rewrite !append_cons; discriminate.
Qed.

Section DownloadSectionBehaviour.
Context {E : Externals}.

Lemma download_youtube_video_result (url output_path quality_option : string)
    (w : fs) :
  exists path w1 t,
    download_youtube_video url output_path quality_option w = (Ok path, w1, t)
    /\ extract_calls t = 1%nat
    /\ (output_path <> "" -> path <> Some "").
Proof.
  pose proof (ydl_extract_info_once
                (make_ydl_opts output_path quality_option) url w) as Honce.
  rewrite download_youtube_video_run.
  destruct (ydl_extract_info _ url w) as [[[info|e] w1] t];
    unfold trace in Honce; cbn [snd] in Honce.
  - destruct (falsy_dict info).
    + do 3 eexists. split; [reflexivity|].
      rewrite extract_calls_app, Honce. split; [reflexivity|discriminate].
    + destruct (find_file _ _) as [[file|]|e].
      * do 3 eexists. split; [reflexivity|]. split; [exact Honce|].
        intros Hout [= Hp]. exact (path_join_nonempty _ _ Hout Hp).
      * do 3 eexists. split; [reflexivity|].
        rewrite extract_calls_app, Honce. split; [reflexivity|discriminate].
      * do 3 eexists. split; [reflexivity|].
        rewrite extract_calls_app, Honce. split; [reflexivity|discriminate].
  - do 3 eexists. split; [reflexivity|].
    rewrite extract_calls_app, Honce. split; [reflexivity|discriminate].
Qed.

(** X19. The download part of the page never lets an exception out, and it
    asks yt-dlp exactly once when "Download Video" is pressed with a
    non-empty URL and not at all otherwise: an empty URL is ignored
    without a message. *)
Theorem download_section_asks_once (ui : ui_input) (w : fs) :
  let r := download_section ui w in
  outcome r = Ok tt
  /\ extract_calls (trace r)
     = (if in_download_clicked ui && negb (String.eqb (in_video_url ui) "")
        then 1%nat else 0%nat)
  /\ (in_video_url ui = "" -> r = (Ok tt, w, [])).
Proof.
  cbv zeta. unfold download_section.
  destruct (in_download_clicked ui); [|repeat split].
  destruct (String.eqb (in_video_url ui) "") eqn:Hurl; [repeat split|].
  cbn [negb andb].
  destruct (download_youtube_video_result (in_video_url ui) downloads_dir
              (default "" (selectbox quality_options (in_download_quality ui)))
              w) as (path & w1 & t & Hrun & Hcount & _).
  unfold try_except, bind. rewrite Hrun.
  split; [|split].
  - unfold offer_download, bind, emit, ret, read_file_bytes.
    destruct path as [p|]; [|reflexivity].
    destruct (String.eqb p ""); [reflexivity|].
    destruct (read_bytes w1 p); reflexivity.
  - unfold offer_download, bind, emit, ret, read_file_bytes.
    destruct path as [p|];
      [|unfold trace; cbn [snd]; rewrite extract_calls_app, Hcount; reflexivity].
    destruct (String.eqb p "");
      [unfold trace; cbn [snd]; rewrite extract_calls_app, Hcount; reflexivity|].
    destruct (read_bytes w1 p); unfold trace; cbn [snd];
      rewrite ?extract_calls_app, Hcount; reflexivity.
  - intros Hempty. rewrite Hempty in Hurl. discriminate Hurl.
Qed.

(** X20. When the downloaded file cannot be read back for the download
    button, the page shows the success message and then "Download
    failed: <exception>": here the exception is caught (lines
    147-148). *)
Theorem download_section_read_failure (ui : ui_input) (w w1 : fs)
    (path : string) (t : list event) (e : exn) :
  in_download_clicked ui = true ->
  in_video_url ui <> "" ->
  download_youtube_video (in_video_url ui) downloads_dir
    (default "" (selectbox quality_options (in_download_quality ui))) w
  = (Ok (Some path), w1, t) ->
  read_bytes w1 path = Raise e ->
  download_section ui w
  = (Ok tt, w1,
     (t ++ [StSuccess "Video downloaded successfully!"; FileRead path;
            StError ("Download failed: " +:+ exn_str e)])%list).
Proof.
  intros Hclick Hurl Hrun Hread.
  assert (Hp : path <> "").
  { destruct (download_youtube_video_result (in_video_url ui) downloads_dir
                (default "" (selectbox quality_options (in_download_quality ui)))
                w) as (path' & w' & t' & Hrun' & _ & Hne).
    rewrite Hrun in Hrun'. injection Hrun' as <- _ _.
    intros ->. apply Hne; [discriminate|reflexivity]. }
  unfold download_section. rewrite Hclick.
  apply String.eqb_neq in Hurl, Hp. rewrite Hurl. cbn [negb].
  unfold try_except, bind. rewrite Hrun.
  unfold offer_download, bind, emit, read_file_bytes.
  rewrite Hp, Hread. cbn [app]. rewrite <- app_assoc. reflexivity.
Qed.

End DownloadSectionBehaviour.

(** ** The further properties on concrete runs *)

Lemma trim_video_path_only_after_write_witness :
  "/app/data/trimmed_videos/trimmed_talk.mp4"
  = "/app/data/trimmed_videos/trimmed_talk.mp4"
  /\ exists c c' : Q,
       disk_open sample_disk "/app/data/downloads/talk.mp4" = Ok c
       /\ (0 <= 120 /\ 120 < 300 /\ 300 <= c)%Q
       /\ Ok (300 - 120)%Q = Ok c'
       /\ disk_write sample_disk c' "/app/data/trimmed_videos/trimmed_talk.mp4"
          = (Ok tt,
             final_fs (trim_video (E := offline) "/app/data/downloads/talk.mp4"
                         120 300 "/app/data/trimmed_videos/trimmed_talk.mp4"
                         sample_disk)).
Proof.
  apply (trim_video_path_only_after_write (E := offline)
           "/app/data/downloads/talk.mp4"
           "/app/data/trimmed_videos/trimmed_talk.mp4"
           "/app/data/trimmed_videos/trimmed_talk.mp4" 120 300 sample_disk).
  reflexivity.
Defined.

(** The disk is full while the cut of the talk is written. *)
Lemma trim_video_failure_leaves_clip_open_witness :
  let r := trim_video (E := faulty_externals ydl_offline true false true)
             "/app/data/downloads/talk.mp4" 120 300
             "/app/data/trimmed_videos/trimmed_talk.mp4" sample_disk in
  outcome r = Ok None
  /\ last (trace r)
     = Some (StError
               "Error trimming video: [Errno 28] No space left on device")
  /\ List.filter is_close (trace r) = [].
Proof.
  apply (trim_video_failure_leaves_clip_open
           (E := faulty_externals ydl_offline true false true)
           "/app/data/downloads/talk.mp4"
           "/app/data/trimmed_videos/trimmed_talk.mp4" 120 300 sample_disk
           600%Q (LibraryError "[Errno 28] No space left on device")).
  - reflexivity.
  - reflexivity.
  - right. exists (300 - 120)%Q. split; reflexivity.
Defined.

(** A dictionary without ['status']. *)
Lemma download_progress_outcomes_witness :
  (KeyError "status" = KeyError "status"
   /\ (∅ : gmap string pyval) !! "status" = None)
  \/ (exists msg, KeyError "status" = TypeError msg)
  \/ (exists msg, KeyError "status" = OverflowError msg)
  \/ (exists v : Q,
        KeyError "status"
        = LibraryError "Progress Value has invalid value [0.0, 1.0]"
        /\ Qle_bool 0 v && Qle_bool v 1 = false).
Proof.
  apply (proj1 (proj2 (proj2 (download_progress_outcomes (E := offline) ∅
                                sample_disk (disk_float_laws ydl_offline))))).
  reflexivity.
Defined.

Lemma total_bytes_overrides_estimate_witness :
  download_progress (E := offline)
    (<["total_bytes_estimate" := PFloat 999]>
       (progress_dict 50 (Some 200%Z) None)) sample_disk
  = download_progress (E := offline) (progress_dict 50 (Some 200%Z) None)
      sample_disk.
Proof.
  apply (total_bytes_overrides_estimate (E := offline)
           (progress_dict 50 (Some 200%Z) None) (PInt 200)).
  - vm_compute. reflexivity.
  - reflexivity.
Defined.

Lemma find_file_first_containing_witness :
  find_file (PStr "Cats") ["Dogs.mp4"; "Cats and Dogs.mp4"; "Cats.mp4"]
  = Ok (Some "Cats and Dogs.mp4").
Proof.
  apply (proj1 (find_file_first_containing "Cats"
                  ["Dogs.mp4"; "Cats and Dogs.mp4"; "Cats.mp4"])).
  exists ["Dogs.mp4"], ["Cats.mp4"]. split; [reflexivity|]. split.
  - exists "", " and Dogs.mp4". reflexivity.
  - constructor; [|constructor].
    intros pre post Heq.
    assert (Hin : str_in "Cats" "Dogs.mp4" = true)
      by (rewrite Heq; apply str_in_split; eauto).
    vm_compute in Hin. discriminate Hin.
Defined.

Lemma download_path_only_for_listed_match_witness :
  exists info t file,
    outcome (ydl_extract_info
               (E := disk_externals (ydl_saving "Cats.mp4" "Cats" 120))
               (make_ydl_opts downloads_dir "Best Available")
               "https://youtu.be/cats" older_disk)
    = Ok (Some info)
    /\ title_of info = PStr t
    /\ In file
         (disk_listdir
            (final_fs
               (download_youtube_video
                  (E := disk_externals (ydl_saving "Cats.mp4" "Cats" 120))
                  "https://youtu.be/cats" downloads_dir "Best Available"
                  older_disk))
            downloads_dir)
    /\ (exists pre post, file = pre +:+ t +:+ post)
    /\ "/app/data/downloads/Cats and Dogs.mp4" = path_join downloads_dir file.
Proof.
  apply (download_path_only_for_listed_match
           (E := disk_externals (ydl_saving "Cats.mp4" "Cats" 120))
           "https://youtu.be/cats" downloads_dir "Best Available"
           "/app/data/downloads/Cats and Dogs.mp4" older_disk).
  vm_compute. reflexivity.
Defined.

(** A video without a title, saved beside the older file. *)
Lemma empty_title_returns_first_listed_witness :
  outcome (download_youtube_video
             (E := disk_externals (ydl_saving "NA.mp4" "" 120))
             "https://youtu.be/untitled" downloads_dir "Best Available"
             older_disk)
  = Ok (Some "/app/data/downloads/Cats and Dogs.mp4").
Proof.
  apply (empty_title_returns_first_listed
           (E := disk_externals (ydl_saving "NA.mp4" "" 120))
           "https://youtu.be/untitled" downloads_dir "Best Available"
           older_disk {[ "title" := PStr "" ]} "Cats and Dogs.mp4" ["NA.mp4"]).
  - reflexivity.
  - vm_compute. reflexivity.
  - vm_compute. reflexivity.
Defined.

Lemma non_string_title_fails_witness :
  let r := download_youtube_video
             (E := disk_externals
                     (ydl_returning (Some {[ "title" := PNone ]})))
             "https://youtu.be/talk" downloads_dir "Best Available"
             sample_disk in
  outcome r = Ok None
  /\ last (trace r)
     = Some (StError
               ("Unexpected error downloading video: "
                +:+ "'in <string>' requires string as left operand, not "
                +:+ "NoneType")).
Proof.
  apply (non_string_title_fails
           (E := disk_externals (ydl_returning (Some {[ "title" := PNone ]})))
           "https://youtu.be/talk" downloads_dir "Best Available" sample_disk
           {[ "title" := PNone ]} PNone).
  - reflexivity.
  - vm_compute. reflexivity.
  - discriminate.
Defined.

Lemma logger_shows_errors_only_witness :
  ydl_extract_info (E := disk_externals ydl_logging)
    (make_ydl_opts downloads_dir "Best Available") "https://youtu.be/gone"
    sample_disk
  = (Ok None, sample_disk,
     [YdlExtractInfo "https://youtu.be/gone" "best[ext=mp4]"
        "/app/data/downloads/%(title)s.%(ext)s";
      StError "Download error: ERROR: Video unavailable";
      StError "Download error: ERROR: Sign in to confirm your age"]).
Proof.
  apply (logger_shows_errors_only (E := disk_externals ydl_logging)
           (make_ydl_opts downloads_dir "Best Available")
           "https://youtu.be/gone" sample_disk).
  reflexivity.
Defined.

Lemma trimming_section_idle_witness :
  let r := trimming_section (E := offline) (press_download "" None)
             sample_disk in
  final_fs r = sample_disk /\ List.filter is_cut_or_write (trace r) = [].
Proof.
  apply (trimming_section_idle (E := offline)). reflexivity.
Defined.

(** moviepy cannot read the first listed file. *)
Lemma trimming_section_unreadable_selection_witness :
  trimming_section (E := faulty_externals ydl_offline false true true)
    (press_download "" None) sample_disk
  = (Raise (LibraryError
              ("MoviePy error: failed to read the duration of file "
               +:+ "/app/data/downloads/talk.mp4")),
     sample_disk, [ClipOpen "/app/data/downloads/talk.mp4"]).
Proof.
  apply (trimming_section_unreadable_selection
           (E := faulty_externals ydl_offline false true true)
           (press_download "" None) sample_disk "talk.mp4").
  - reflexivity.
  - discriminate.
  - reflexivity.
Defined.

Lemma trimming_section_success_witness :
  trimming_section (E := offline) (press_trim None (Some 2%Q) (Some 5%Q))
    sample_disk
  = (Ok tt,
     snd (disk_write sample_disk (5 * 60 - 2 * 60)%Q
            "/app/data/trimmed_videos/trimmed_talk.mp4"),
     [ClipOpen "/app/data/downloads/talk.mp4"; ClipClose;
      ClipOpen "/app/data/downloads/talk.mp4";
      ClipSubclip (2 * 60) (5 * 60);
      ClipWriteVideofile "/app/data/trimmed_videos/trimmed_talk.mp4";
      ClipClose; ClipClose;
      StSuccess "Video trimmed successfully!";
      FileRead "/app/data/trimmed_videos/trimmed_talk.mp4";
      StDownloadButton "Download Trimmed Video" "trimmed_talk.mp4" "video/mp4"]).
Proof.
  apply (trimming_section_success (E := offline)
           (press_trim None (Some 2%Q) (Some 5%Q)) sample_disk _ "talk.mp4"
           600%Q (5 * 60 - 2 * 60)%Q []).
  - reflexivity.
  - discriminate.
  - reflexivity.
  - reflexivity.
  - reflexivity.
  - reflexivity.
  - reflexivity.
  - reflexivity.
  - reflexivity.
Defined.

Lemma trimming_section_read_failure_witness :
  outcome (trimming_section (E := faulty_externals ydl_offline true true false)
             (press_trim None (Some 2%Q) (Some 5%Q)) sample_disk)
  = Raise (LibraryError
             ("[Errno 13] Permission denied: '"
              +:+ "/app/data/trimmed_videos/trimmed_talk.mp4" +:+ "'")).
Proof.
  rewrite (trimming_section_read_failure
             (E := faulty_externals ydl_offline true true false)
             (press_trim None (Some 2%Q) (Some 5%Q)) sample_disk
             (snd (disk_write sample_disk (5 * 60 - 2 * 60)%Q
                     "/app/data/trimmed_videos/trimmed_talk.mp4"))
             "talk.mp4" 600%Q (5 * 60 - 2 * 60)%Q
             (LibraryError
                ("[Errno 13] Permission denied: '"
                 +:+ "/app/data/trimmed_videos/trimmed_talk.mp4" +:+ "'")));
    first [reflexivity|discriminate].
Defined.

Lemma download_section_asks_once_witness :
  download_section (E := offline) (press_download "" None) sample_disk
  = (Ok tt, sample_disk, []).
Proof.
  apply (proj2 (proj2 (download_section_asks_once (E := offline)
                         (press_download "" None) sample_disk))).
  reflexivity.
Defined.

(** The file yt-dlp saved cannot be read back. *)
Lemma download_section_read_failure_witness :
  trace (download_section
           (E := faulty_externals (ydl_saving "Cats.mp4" "Cats" 120)
                   true true false)
           (press_download "https://youtu.be/cats" None) [])
  = [YdlExtractInfo "https://youtu.be/cats" "best[ext=mp4]"
       "/app/data/downloads/%(title)s.%(ext)s";
     StSuccess "Video downloaded successfully!";
     FileRead "/app/data/downloads/Cats.mp4";
     StError ("Download failed: [Errno 13] Permission denied: '"
              +:+ "/app/data/downloads/Cats.mp4" +:+ "'")].
Proof.
  rewrite (download_section_read_failure
             (E := faulty_externals (ydl_saving "Cats.mp4" "Cats" 120)
                     true true false)
             (press_download "https://youtu.be/cats" None) []
             [("/app/data/downloads/Cats.mp4", 120%Q)]
             "/app/data/downloads/Cats.mp4"
             [YdlExtractInfo "https://youtu.be/cats" "best[ext=mp4]"
                "/app/data/downloads/%(title)s.%(ext)s"]
             (LibraryError
                ("[Errno 13] Permission denied: '"
                 +:+ "/app/data/downloads/Cats.mp4" +:+ "'")));
    first [reflexivity|discriminate].
Defined.
